(** * Deep Researcher: orchestration engine

    A shallow embedding of the stage graph, the quality gate and revision
    loop, the section fan-out of the knowledge-retrieval stage and the
    checkpoint store of the Deep Researcher pipeline, together with the
    properties its specification states about them.

    Python dictionaries keyed by strings are finite maps ([gmap string]),
    nested dictionaries are association lists (their order is the order
    written to the snapshot), exceptions are an explicit result type and
    calls that leave the process (the language model, the search service,
    the clock, the file system) are recorded in a trace of events and
    answered by an environment that may depend on the whole history. *)

From Stdlib Require Import ZArith QArith Ascii String Permutation Lia.
From Stdlib Require DecimalString DecimalZ.
From stdpp Require Import base option list gmap strings pretty.

Set Warnings "-register-all".

Open Scope string_scope.
Open Scope Z_scope.

(** ** Enumerations of [src/core/state.py] *)

Module Enums.

Inductive AnalysisIntent :=
  | OVERVIEW | COMPARISON | CAUSAL_ANALYSIS
  | TREND_PREDICTION | PROS_CONS | SOLUTION_PROPOSAL.

Inductive DomainCategory :=
  | AI | BUSINESS_MODEL | SUSTAINABILITY | SOCIAL_CHANGE
  | LIFE_SCIENCES | GLOBAL_AFFAIRS | GENERAL.

Inductive ValidationStatus :=
  | PENDING | IN_PROGRESS | VALIDATED | NEEDS_REVISION | FAILED.

Inductive AgentName :=
  | COORDINATOR | UNDERSTANDING | STRUCTURING | KNOWLEDGE
  | WRITING | VALIDATION | REVISION.

(** Status literal of a report section. *)
Inductive SectionStatus := Outlined | Researching | Drafted | Polished.

#[global] Instance AnalysisIntent_eq_dec : EqDecision AnalysisIntent.
Proof. solve_decision. Defined.
#[global] Instance DomainCategory_eq_dec : EqDecision DomainCategory.
Proof. solve_decision. Defined.
#[global] Instance ValidationStatus_eq_dec : EqDecision ValidationStatus.
Proof. solve_decision. Defined.
#[global] Instance AgentName_eq_dec : EqDecision AgentName.
Proof. solve_decision. Defined.
#[global] Instance SectionStatus_eq_dec : EqDecision SectionStatus.
Proof. solve_decision. Defined.

(** The [.value] of each member. *)
Definition intent_value (i : AnalysisIntent) : string :=
  match i with
  | OVERVIEW => "overview"
  | COMPARISON => "comparison"
  | CAUSAL_ANALYSIS => "causal_analysis"
  | TREND_PREDICTION => "trend_prediction"
  | PROS_CONS => "pros_cons"
  | SOLUTION_PROPOSAL => "solution_proposal"
  end.

Definition domain_value (d : DomainCategory) : string :=
  match d with
  | AI => "前沿科技与人工智能"
  | BUSINESS_MODEL => "商业模式与市场动态"
  | SUSTAINABILITY => "可持续发展与环境治理"
  | SOCIAL_CHANGE => "社会变迁与文化趋势"
  | LIFE_SCIENCES => "生命科学与公共健康"
  | GLOBAL_AFFAIRS => "全球事务与未来治理"
  | GENERAL => "通用"
  end.

Definition status_value (v : ValidationStatus) : string :=
  match v with
  | PENDING => "pending"
  | IN_PROGRESS => "in_progress"
  | VALIDATED => "validated"
  | NEEDS_REVISION => "needs_revision"
  | FAILED => "failed"
  end.

Definition agent_value (a : AgentName) : string :=
  match a with
  | COORDINATOR => "chief_coordinator_agent"
  | UNDERSTANDING => "problem_understanding_agent"
  | STRUCTURING => "report_structure_planning_agent"
  | KNOWLEDGE => "knowledge_retrieval_agent"
  | WRITING => "report_writing_agent"
  | VALIDATION => "validation_agent"
  | REVISION => "revision_agent"
  end.

Definition section_status_value (s : SectionStatus) : string :=
  match s with
  | Outlined => "outlined"
  | Researching => "researching"
  | Drafted => "drafted"
  | Polished => "polished"
  end.

(** Calling the enumeration class on a value: the member whose value it
    is, or [None] where Python raises [ValueError]. *)
Definition by_value {A} (value : A -> string) (members : list A) (s : string)
  : option A :=
  List.find (fun m => bool_decide (value m = s)) members.

Definition all_intents : list AnalysisIntent :=
  [OVERVIEW; COMPARISON; CAUSAL_ANALYSIS; TREND_PREDICTION; PROS_CONS;
   SOLUTION_PROPOSAL].
Definition all_domains : list DomainCategory :=
  [AI; BUSINESS_MODEL; SUSTAINABILITY; SOCIAL_CHANGE; LIFE_SCIENCES;
   GLOBAL_AFFAIRS; GENERAL].
Definition all_statuses : list ValidationStatus :=
  [PENDING; IN_PROGRESS; VALIDATED; NEEDS_REVISION; FAILED].
Definition all_agents : list AgentName :=
  [COORDINATOR; UNDERSTANDING; STRUCTURING; KNOWLEDGE; WRITING; VALIDATION;
   REVISION].
Definition all_section_statuses : list SectionStatus :=
  [Outlined; Researching; Drafted; Polished].

Definition intent_of_value := by_value intent_value all_intents.
Definition domain_of_value := by_value domain_value all_domains.
Definition status_of_value := by_value status_value all_statuses.
Definition agent_of_value := by_value agent_value all_agents.
Definition section_status_of_value :=
  by_value section_status_value all_section_statuses.

End Enums.
Export Enums.

(** ** Python values *)

(** A naive [datetime], as the number of microseconds since the epoch. *)
Definition datetime := Z.

(** A Python [float]: every finite double is a rational number and doubles
    compare as the rationals they denote.  No double lies strictly between
    the decimal 8.3 and the double the literal [8.3] denotes, so comparing
    a double with the literal is comparing it with 83/10. *)
Inductive pyfloat := FNum (q : Q) | FPosInf | FNegInf | FNaN.

(** [a >= b] on floats; every comparison with NaN is false. *)
Definition float_ge (a b : pyfloat) : bool :=
  match a, b with
  | FNaN, _ | _, FNaN => false
  | FPosInf, _ => true
  | _, FNegInf => true
  | FNegInf, _ => false
  | _, FPosInf => false
  | FNum x, FNum y => Qle_bool y x
  end.

(** [a > b] on floats. *)
Definition float_gt (a b : pyfloat) : bool :=
  match a, b with
  | FNaN, _ | _, FNaN => false
  | _, FPosInf => false
  | FNegInf, _ => false
  | FPosInf, _ => true
  | _, FNegInf => true
  | FNum x, FNum y => negb (Qle_bool x y)
  end.

Definition float_of_Z (z : Z) : pyfloat := FNum (inject_Z z).

Record AnalysisQuery := {
  domain : DomainCategory;
  analysis_intent : AnalysisIntent;
}.

Record ReportSection := {
  title : string;
  key_questions : list string;
  content : string;
  sources : list string;
  status : SectionStatus;
}.

Record ReportStructure := {
  template_type : string;
  sections : list ReportSection;
  executive_summary_required : bool;
  recommendations_required : bool;
  target_length : Z;
  length_tolerance : Z;
}.

Inductive pyval :=
  | PNone
  | PBool (b : bool)
  | PInt (z : Z)
  | PFloat (f : pyfloat)
  | PStr (s : string)
  | PList (l : list pyval)
  | PDict (d : list (string * pyval))
  | PDatetime (t : datetime)
  | PStatus (v : ValidationStatus)
  | PAgent (a : AgentName)
  | PQuery (q : AnalysisQuery)
  | PStructure (r : ReportStructure).

(** [GlobalState] is a [TypedDict]: at run time a plain dictionary. *)
Abbreviation GlobalState := (gmap string pyval).

(** Exceptions carry their message. *)
Inductive result (A : Type) :=
  | Ok (a : A)
  | Raise (msg : string).
Arguments Ok {A} a.
Arguments Raise {A} msg.

#[global] Instance result_fmap : FMap result := fun A B f r =>
  match r with Ok a => Ok (f a) | Raise e => Raise e end.

Definition is_ok {A} (r : result A) : bool :=
  match r with Ok _ => true | Raise _ => false end.

(** [state.get(key)] and [state.get(key, default)]. *)
Definition get (state : GlobalState) (key : string) : pyval :=
  default PNone (state !! key).
Definition get_or (state : GlobalState) (key : string) (dflt : pyval) : pyval :=
  default dflt (state !! key).

(** [state[key]], raising [KeyError] on a missing key. *)
Definition getitem (state : GlobalState) (key : string) : result pyval :=
  match state !! key with
  | Some v => Ok v
  | None => Raise ("KeyError: " ++ key)
  end.

(** [value is None]. *)
Definition is_none (v : pyval) : bool :=
  match v with PNone => true | _ => false end.

(** Truth value of an object.  The string enumerations have non-empty
    values and the pydantic models define no [__bool__]. *)
Definition truthy (v : pyval) : bool :=
  match v with
  | PNone => false
  | PBool b => b
  | PInt z => negb (z =? 0)
  | PFloat (FNum q) => negb (Qeq_bool q 0)
  | PFloat _ => true
  | PStr s => negb (String.eqb s "")
  | PList l => negb (bool_decide (length l = 0%nat))
  | PDict d => negb (bool_decide (length d = 0%nat))
  | PDatetime _ | PStatus _ | PAgent _ | PQuery _ | PStructure _ => true
  end.

(** The string an object is when it is a [str]; members of the string
    enumerations are instances of [str] and compare as their value. *)
Definition as_str (v : pyval) : option string :=
  match v with
  | PStr s => Some s
  | PStatus x => Some (status_value x)
  | PAgent a => Some (agent_value a)
  | _ => None
  end.

(** [value == ValidationStatus.X]. *)
Definition eq_status (v : pyval) (x : ValidationStatus) : bool :=
  bool_decide (as_str v = Some (status_value x)).

(** [value < bound], [value >= bound] against an integer literal;
    [TypeError] for operands that do not order against an [int]. *)
Definition lt_int (v : pyval) (bound : Z) : result bool :=
  match v with
  | PInt z => Ok (z <? bound)
  | PBool b => Ok (Z.b2z b <? bound)
  | PFloat f => Ok (float_gt (float_of_Z bound) f)
  | _ => Raise "TypeError: '<' not supported"
  end.
Definition ge_int (v : pyval) (bound : Z) : result bool :=
  match v with
  | PInt z => Ok (bound <=? z)
  | PBool b => Ok (bound <=? Z.b2z b)
  | PFloat f => Ok (float_ge f (float_of_Z bound))
  | _ => Raise "TypeError: '>=' not supported"
  end.
Definition gt_int (v : pyval) (bound : Z) : result bool :=
  match v with
  | PInt z => Ok (bound <? z)
  | PBool b => Ok (bound <? Z.b2z b)
  | PFloat f => Ok (float_gt f (float_of_Z bound))
  | _ => Raise "TypeError: '>' not supported"
  end.

(** The result of one evaluation by the quality gate. *)
Record QualityMetrics := {
  overall_score : pyfloat;
  detailed_scores : pyval;
  major_issues : pyval;
  feedback : pyval;
  word_count_accuracy : bool;
  actual_word_count : Z;
  evaluation_method : string;
  timestamp : datetime;
}.

(** ** Library routines and the outside world *)

(** A JSON document, as [json.dump] writes it and [json.load] reads it. *)
Inductive json :=
  | JNull
  | JBool (b : bool)
  | JInt (z : Z)
  | JFloat (f : pyfloat)
  | JStr (s : string)
  | JArr (items : list json)
  | JObj (members : list (string * json)).

(** The members of every object have distinct names, as the keys of the
    dictionary they are written from. *)
Fixpoint json_keys_distinct (j : json) : bool :=
  match j with
  | JArr items => forallb json_keys_distinct items
  | JObj members =>
      bool_decide (NoDup (map fst members))
      && forallb (fun kv => json_keys_distinct (snd kv)) members
  | _ => true
  end.

(** A string of lower-case ASCII letters and underscores. *)
Definition lower_snake (s : string) : bool :=
  forallb
    (fun c =>
       let n := Ascii.N_of_ascii c in
       ((97 <=? n) && (n <=? 122) || (n =? 95))%N)
    (String.list_ascii_of_string s).

(** Routines of the Python library whose laws the development uses: the
    ISO-8601 rendering of timestamps, the text form of JSON, written in
    chunks and read back whole, and the normalisation of a string. *)
Class PyLib := {
  isoformat : datetime -> string;
  fromisoformat : string -> option datetime;
  fromisoformat_isoformat : forall t, fromisoformat (isoformat t) = Some t;
  text : Type;
  text_empty : text;
  text_append : text -> text -> text;
  (* the chunks json.dump(payload, f, ensure_ascii=False, indent=2) writes *)
  json_render : json -> list text;
  (* json.load(f); None where it raises JSONDecodeError *)
  json_parse : text -> option json;
  json_parse_render : forall j,
    json_keys_distinct j = true ->
    json_parse (fold_left text_append (json_render j) text_empty) = Some j;
  (* value.strip().lower() *)
  strip_lower : string -> string;
  strip_lower_snake : forall s, lower_snake s = true -> strip_lower s = s;
}.

(** The text handed to the language model, by the template that builds it
    and the values substituted into it. *)
Inductive prompt :=
  | PromptEvaluation (report : string) (word_limit : pyval)
  | PromptSmartRevision (strategy : string) (report : string)
      (metrics : QualityMetrics) (target_length : pyval)
  | PromptRevisionAdjust (target : Z) (report : string)
  | PromptUnderstanding (existing_analysis : list string) (query : pyval)
  | PromptStructure (query : pyval) (domain analysis_intent : pyval)
  | PromptKnowledgeSection (domain : pyval) (query : pyval)
      (section_title : string) (section_questions : list string)
      (documents : list string)
  | PromptWriting (word_limit : pyval) (query : pyval) (draft : pyval)
  | PromptWritingAdjust (target : Z) (report : string).

(** What a run does to the outside world, in the order it happens. *)
Inductive event :=
  | EvProgress (operation phase : string)
  | EvLLM (agent : string) (p : prompt)
  | EvSearch (query : pyval)
  | EvNow
  | EvExport (report : string).

(** The outside world answers as a function of everything that happened
    before; the remaining fields are pure routines left abstract (regular
    expressions, JSON text, string formatting, the keyword classifier). *)
Record Env := {
  (* llm_client.generate, all chunks joined, or the exception it raises *)
  llm : list event -> string -> prompt -> result string;
  (* DeepSearch().run(query): the titles of the documents found *)
  deep_search : list event -> pyval -> result (list string);
  (* datetime.now() *)
  now : list event -> datetime;
  (* int(os.getenv("SECTION_CONCURRENCY", 2)) *)
  section_concurrency : result Z;
  (* the export of the final artifact in generate_report_node: report
     statistics, saved files and metadata, or the exception raised *)
  export_report : list event -> GlobalState -> result (list (string * pyval));
  (* re.sub(r'^<think>.*?</think>\s*', '', s, flags=re.DOTALL) *)
  strip_think : string -> string;
  (* json.dumps(json.loads(s), ensure_ascii=False, indent=2) *)
  json_reformat : string -> option string;
  (* json.loads, ast.literal_eval, and the regular-expression scrape of
     method 4 of _parse_evaluation_response *)
  json_loads : string -> result pyval;
  literal_eval : string -> result pyval;
  regex_scrape : string -> result pyval;
  (* float(s) and int(s) on a string *)
  float_of_str : string -> result pyfloat;
  int_of_str : string -> result Z;
  (* format(x, spec) of a number, as in f"{x:.1f}", and str(x) *)
  format_float : string -> pyval -> string;
  str_of : pyval -> string;
  (* the outline TemplateManager proposes for an intent and a domain, as
     the text put into the planning prompt *)
  template_sections : pyval -> pyval -> result string;
  (* classify_domain_rule_based, classify_intent_rule_based: the member
     found, its confidence and the matched keywords *)
  classify_domain_rule_based :
    pyval -> result (option DomainCategory * pyfloat * list string);
  classify_intent_rule_based :
    pyval -> result (option AnalysisIntent * pyfloat * list string);
  (* JsonOutputParser().parse(format_result(s)) of the understanding stage,
     and the sections built from the parsed answer of the planning stage *)
  parse_requirements : string -> result pyval;
  parse_sections : string -> result (list ReportSection);
  (* get_revision_strategy and the checks generate_conservative_revision_prompt
     makes on the metrics: the strategy, or the exception raised on metrics
     that are not of their declared types *)
  plan_revision : QualityMetrics -> result string;
  (* the order in which the futures of the section fan-out complete, as
     positions in the list of submitted tasks *)
  completion_order : list event -> nat -> list nat;
}.

(** Computations that append to the trace and may raise. *)
Definition M (A : Type) : Type := list event -> result A * list event.

#[global] Instance M_ret : MRet M := fun A a tr => (Ok a, tr).
#[global] Instance M_bind : MBind M := fun A B f m tr =>
  match m tr with
  | (Ok a, tr') => f a tr'
  | (Raise e, tr') => (Raise e, tr')
  end.

#[global] Instance M_fmap : FMap M := fun A B f m tr =>
  match m tr with
  | (Ok a, tr') => (Ok (f a), tr')
  | (Raise e, tr') => (Raise e, tr')
  end.

Definition raise {A} (msg : string) : M A := fun tr => (Raise msg, tr).

Definition lift {A} (r : result A) : M A := fun tr => (r, tr).

(** [try: body except Exception as e: handler(e)]. *)
Definition try_except {A} (body : M A) (handler : string -> M A) : M A :=
  fun tr =>
    match body tr with
    | (Ok a, tr') => (Ok a, tr')
    | (Raise e, tr') => handler e tr'
    end.

Definition emit (e : event) : M unit := fun tr => (Ok tt, (tr ++ [e])%list).

(** [user_friendly_progress_event(operation, phase, ...)]. *)
Definition progress (operation phase : string) : M unit :=
  emit (EvProgress operation phase).

Definition call_llm (env : Env) (agent : string) (p : prompt) : M string :=
  fun tr => (llm env tr agent p, (tr ++ [EvLLM agent p])%list).

Definition datetime_now (env : Env) : M datetime :=
  fun tr => (Ok (now env tr), (tr ++ [EvNow])%list).

Definition run_deep_search (env : Env) (query : pyval) : M (list string) :=
  fun tr => (deep_search env tr query, (tr ++ [EvSearch query])%list).

(** [rm_only_think] of [src/utils/__init__.py]. *)
Definition rm_only_think (env : Env) (input_str : string) : string :=
  let cleaned_str := strip_think env input_str in
  match json_reformat env cleaned_str with
  | Some formatted_json => formatted_json
  | None => cleaned_str
  end.

(** ** Counting words, [src/utils/word_count.py] *)

(** A Python string is held as its UTF-8 bytes; the regular expressions of
    the source range over code points. *)
Fixpoint code_points (bytes : list N) : list N :=
  match bytes with
  | [] => []
  | b0 :: rest =>
      if (b0 <? 128)%N then b0 :: code_points rest
      else if (b0 <? 224)%N then
        match rest with
        | b1 :: rest' =>
            ((b0 - 192) * 64 + (b1 - 128))%N :: code_points rest'
        | [] => [b0]
        end
      else if (b0 <? 240)%N then
        match rest with
        | b1 :: b2 :: rest' =>
            ((b0 - 224) * 4096 + (b1 - 128) * 64 + (b2 - 128))%N
              :: code_points rest'
        | _ => [b0]
        end
      else
        match rest with
        | b1 :: b2 :: b3 :: rest' =>
            ((b0 - 240) * 262144 + (b1 - 128) * 4096 + (b2 - 128) * 64
             + (b3 - 128))%N :: code_points rest'
        | _ => [b0]
        end
  end.

Definition str_code_points (text : string) : list N :=
  code_points (map Ascii.N_of_ascii (String.list_ascii_of_string text)).

(** [len(text)]. *)
Definition str_len (text : string) : Z :=
  Z.of_nat (length (str_code_points text)).

(** [[一-鿿㐀-䶿]]. *)
Definition is_chinese (c : N) : bool :=
  ((19968 <=? c) && (c <=? 40959) || (13312 <=? c) && (c <=? 19903))%N.

(** [[a-zA-Z0-9]]. *)
Definition is_alnum (c : N) : bool :=
  ((97 <=? c) && (c <=? 122) || (65 <=? c) && (c <=? 90)
   || (48 <=? c) && (c <=? 57))%N.

(** Number of maximal runs of characters of a class: the matches
    [re.findall] returns for [[...]+]. *)
Fixpoint count_runs (p : N -> bool) (inside : bool) (cs : list N) : Z :=
  match cs with
  | [] => 0
  | c :: cs' =>
      if p c then (if inside then 0 else 1) + count_runs p true cs'
      else count_runs p false cs'
  end.

Definition count_chinese_characters (text : string) : Z :=
  Z.of_nat (length (filter (fun c => is_chinese c = true) (str_code_points text))).

Definition count_words (text : string) : Z :=
  let chinese_count := count_chinese_characters text in
  let english_words := count_runs is_alnum false (str_code_points text) in
  chinese_count + english_words.

(** ** The conditional edge of [src/core/graph.py] *)

Inductive route := Route_revision | Route_generate_report.

Definition should_revision (state : GlobalState) : result route :=
  match getitem state "validation_status" with
  | Raise e => Raise e
  | Ok st =>
      if eq_status st VALIDATED then Ok Route_generate_report
      else if eq_status st NEEDS_REVISION then
        match lt_int (get_or state "revision_count" (PInt 0)) 3 with
        | Raise e => Raise e
        | Ok true => Ok Route_revision
        | Ok false => Ok Route_generate_report
        end
      else Ok Route_generate_report
  end.

(** ** Quality metrics and the pass rule of [src/utils/quality_system.py] *)

(** A nested dictionary, in insertion order. *)
Definition dict_get (d : list (string * pyval)) (key : string) : option pyval :=
  snd <$> List.find (fun kv => bool_decide (fst kv = key)) d.

(** [d[key] = v]: in place when the key is there, at the end otherwise. *)
Fixpoint dict_set (d : list (string * pyval)) (key : string) (v : pyval)
  : list (string * pyval) :=
  match d with
  | [] => [(key, v)]
  | (k, x) :: d' =>
      if bool_decide (k = key) then (k, v) :: d'
      else (k, x) :: dict_set d' key v
  end.

(** [{**d, **upd}]. *)
Definition dict_update (d upd : list (string * pyval)) : list (string * pyval) :=
  fold_left (fun acc kv => dict_set acc (fst kv) (snd kv)) upd d.

(** [len(v)]; [TypeError] for an object without a length. *)
Definition py_len (v : pyval) : result Z :=
  match v with
  | PStr s => Ok (str_len s)
  | PList l => Ok (Z.of_nat (length l))
  | PDict d => Ok (Z.of_nat (length d))
  | PStatus x => Ok (str_len (status_value x))
  | PAgent a => Ok (str_len (agent_value a))
  | _ => Raise "TypeError: object has no len()"
  end.

Definition to_dict `{PyLib} (m : QualityMetrics) : list (string * pyval) :=
  [("overall_score", PFloat (overall_score m));
   ("detailed_scores", detailed_scores m);
   ("major_issues", major_issues m);
   ("feedback", feedback m);
   ("word_count_accuracy", PBool (word_count_accuracy m));
   ("actual_word_count", PInt (actual_word_count m));
   ("evaluation_method", PStr (evaluation_method m));
   ("timestamp", PStr (isoformat (timestamp m)))].

Definition is_high_quality (m : QualityMetrics) : bool :=
  float_ge (overall_score m) (FNum (83 # 10)).

(** [self.overall_score >= 8.0 and len(self.major_issues) == 0]. *)
Definition is_acceptable_quality (m : QualityMetrics) : result bool :=
  if float_ge (overall_score m) (FNum (80 # 10)) then
    match py_len (major_issues m) with
    | Ok n => Ok (n =? 0)
    | Raise e => Raise e
    end
  else Ok false.

Definition should_report_pass_quality_check (m : QualityMetrics) : result bool :=
  if is_high_quality m then Ok true
  else
    match is_acceptable_quality m with
    | Raise e => Raise e
    | Ok true => Ok true
    | Ok false =>
        (* the log line of the failing branch takes len(major_issues) *)
        match py_len (major_issues m) with
        | Ok _ => Ok false
        | Raise e => Raise e
        end
    end.

(** [response[start:end+1]] for the first opening and the last closing
    brace, when both exist and are in this order (method 2 of the parser). *)
Fixpoint find_ascii (c : Ascii.ascii) (cs : list Ascii.ascii) : option nat :=
  match cs with
  | [] => None
  | x :: cs' =>
      if Ascii.eqb x c then Some 0%nat else S <$> find_ascii c cs'
  end.

Definition rfind_ascii (c : Ascii.ascii) (cs : list Ascii.ascii) : option nat :=
  (fun i => (length cs - 1 - i)%nat) <$> find_ascii c (rev cs).

Definition brace_slice (response : string) : option string :=
  let cs := String.list_ascii_of_string response in
  match find_ascii "{"%char cs, rfind_ascii "}"%char cs with
  | Some start, Some stop =>
      if (start <? stop)%nat then
        Some (String.string_of_list_ascii
                (take (stop + 1 - start) (drop start cs)))
      else None
  | _, _ => None
  end.

(** [try: x = f() except Exception: pass] on a variable holding [None]. *)
Definition attempt (r : result pyval) : pyval :=
  match r with Ok v => v | Raise _ => PNone end.

Definition default_evaluation_result : pyval :=
  PDict
    [("overall_score", PFloat (FNum 5));
     ("detailed_scores",
       PDict [("content_completeness", PFloat (FNum 1));
              ("logical_clarity", PFloat (FNum 1));
              ("language_expression", PFloat (FNum 1));
              ("professional_depth", PFloat (FNum 1));
              ("structural_rationality", PFloat (FNum 1))]);
     ("major_issues", PList [PStr "评估结果解析失败"]);
     ("feedback", PStr "输出格式不标准，无法准确评估，建议重新评估。")].

Definition _parse_evaluation_response (env : Env) (response : string) : pyval :=
  let response := rm_only_think env response in
  let method1 := attempt (json_loads env response) in
  let method2 :=
    if is_none method1 then
      match brace_slice response with
      | Some fragment => attempt (json_loads env fragment)
      | None => PNone
      end
    else method1 in
  let method3 :=
    if is_none method2 then attempt (literal_eval env response) else method2 in
  let method4 :=
    if is_none method3 then attempt (regex_scrape env response) else method3 in
  if is_none method4 then default_evaluation_result else method4.

(** [evaluation_result.get(key, default)]; only a dictionary has [get]. *)
Definition get_method (v : pyval) (key : string) (dflt : pyval) : result pyval :=
  match v with
  | PDict d => Ok (default dflt (dict_get d key))
  | _ => Raise "AttributeError: object has no attribute 'get'"
  end.

(** [float(v)]. *)
Definition to_float (env : Env) (v : pyval) : result pyfloat :=
  match v with
  | PFloat f => Ok f
  | PInt z => Ok (float_of_Z z)
  | PBool b => Ok (float_of_Z (Z.b2z b))
  | PStr s => float_of_str env s
  | PStatus x => float_of_str env (status_value x)
  | PAgent a => float_of_str env (agent_value a)
  | _ => Raise "TypeError: float() argument must be a string or a real number"
  end.

(** Truncation of a rational towards zero, as [int] does on a float. *)
Definition Qtrunc (q : Q) : Z := Z.quot (Qnum q) (Zpos (Qden q)).

(** [int(word_limit * 0.95)] and [int(word_limit * 1.05)], with the factor
    in hundredths.  For an integer below 2^53 the double product is within
    half a unit in the last place of the exact product, so its truncation is
    the truncation of the exact product. *)
Definition scaled_limit (word_limit : pyval) (hundredths : Z) : result Z :=
  match word_limit with
  | PInt z => Ok (Z.quot (z * hundredths) 100)
  | PBool b => Ok (Z.quot (Z.b2z b * hundredths) 100)
  | PFloat (FNum q) => Ok (Qtrunc (q * (hundredths # 100)))
  | PFloat FNaN => Raise "ValueError: cannot convert float NaN to integer"
  | PFloat _ => Raise "OverflowError: cannot convert float infinity to integer"
  | _ => Raise "TypeError: can't multiply by non-int of type 'float'"
  end.

Definition evaluate_report_async (env : Env) (report : string)
    (word_limit : pyval) (method : string) : M QualityMetrics :=
  try_except
    (progress "quality.evaluation" "start";;
     let prompt :=
       PromptEvaluation report
         (if truthy word_limit then word_limit else PStr "无限制") in
     progress "quality.evaluation" "llm_call";;
     response ← call_llm env "quality.evaluation" prompt;
     progress "quality.evaluation" "parse_result";;
     let evaluation_result := _parse_evaluation_response env response in
     let actual := count_words report in
     accuracy ←
       (if is_none word_limit then mret true
        else
          lower ← lift (scaled_limit word_limit 95);
          upper ← lift (scaled_limit word_limit 105);
          mret ((lower <=? actual) && (actual <=? upper)));
     score_value ← lift (get_method evaluation_result "overall_score"
                           (PFloat (FNum 5)));
     score ← lift (to_float env score_value);
     scores ← lift (get_method evaluation_result "detailed_scores" (PDict []));
     issues ← lift (get_method evaluation_result "major_issues" (PList []));
     feedback_text ← lift (get_method evaluation_result "feedback" (PStr ""));
     created ← datetime_now env;
     let quality_metrics :=
       {| overall_score := score;
          detailed_scores := scores;
          major_issues := issues;
          feedback := feedback_text;
          word_count_accuracy := accuracy;
          actual_word_count := actual;
          evaluation_method := method;
          timestamp := created |} in
     _ ← lift (py_len issues);
     progress "quality.evaluation" "done";;
     mret quality_metrics)
    (fun e =>
       progress "quality.evaluation" "error";;
       created ← datetime_now env;
       mret {| overall_score := FNum 0;
               detailed_scores := PDict [];
               major_issues := PList [PStr ("评估过程出错: " ++ e)];
               feedback := PStr "评估系统出现错误，无法完成评估。";
               word_count_accuracy := false;
               actual_word_count := str_len report;
               evaluation_method := method;
               timestamp := created |}).

(** [evaluate_report] runs the coroutine to completion and
    [evaluate_report_quality] calls it on the module's evaluator. *)
Definition evaluate_report_quality := evaluate_report_async.

(** ** Helpers shared by the stages, [src/utils/agent_utils.py] *)

Definition newline : string := String (Ascii.ascii_of_nat 10) EmptyString.

(** [state.get("start_time") or state.get("last_updated")]. *)
Definition start_time_or_last_updated (state : GlobalState) : pyval :=
  if truthy (get state "start_time") then get state "start_time"
  else get state "last_updated".

(** [value + [item]]: concatenation needs a list on the left. *)
Definition list_plus (v : pyval) (items : list pyval) : result pyval :=
  match v with
  | PList l => Ok (PList (l ++ items)%list)
  | _ => Raise "TypeError: unsupported operand type(s) for +"
  end.

(** [value + 1]. *)
Definition plus_one (v : pyval) : result pyval :=
  match v with
  | PInt z => Ok (PInt (z + 1))
  | PBool b => Ok (PInt (Z.b2z b + 1))
  | PFloat (FNum q) => Ok (PFloat (FNum (q + 1)))
  | PFloat f => Ok (PFloat f)
  | _ => Raise "TypeError: unsupported operand type(s) for +"
  end.

(** [score >= value] and [score > value] for a float against a stored
    number. *)
Definition float_ge_value (score : pyfloat) (v : pyval) : result bool :=
  match v with
  | PFloat f => Ok (float_ge score f)
  | PInt z => Ok (float_ge score (float_of_Z z))
  | PBool b => Ok (float_ge score (float_of_Z (Z.b2z b)))
  | _ => Raise "TypeError: '>=' not supported"
  end.
Definition float_gt_value (score : pyfloat) (v : pyval) : result bool :=
  match v with
  | PFloat f => Ok (float_gt score f)
  | PInt z => Ok (float_gt score (float_of_Z z))
  | PBool b => Ok (float_gt score (float_of_Z (Z.b2z b)))
  | _ => Raise "TypeError: '>' not supported"
  end.

(** A field declared [str], read as the text it holds. *)
Definition as_text (v : pyval) : result string :=
  match as_str v with
  | Some s => Ok s
  | None => Raise "TypeError: expected string or bytes-like object"
  end.

(** [f"agent.{agent_name.value.replace('_agent', '')}"]. *)
Definition agent_operation (a : AgentName) : string :=
  match a with
  | COORDINATOR => "agent.chief_coordinator"
  | UNDERSTANDING => "agent.problem_understanding"
  | STRUCTURING => "agent.report_structure_planning"
  | KNOWLEDGE => "agent.knowledge_retrieval"
  | WRITING => "agent.report_writing"
  | VALIDATION => "agent.validation"
  | REVISION => "agent.revision"
  end.

Definition create_error_state (env : Env) (state : GlobalState)
    (agent_name : AgentName) (error_message : string)
    (validation_status : ValidationStatus) : M GlobalState :=
  stamp ← datetime_now env;
  let error_state :=
    <["last_updated" := PDatetime stamp]>
      (<["validation_status" := PStatus validation_status]>
         (<["error_message" := PStr error_message]>
            (<["current_agent" := PAgent agent_name]> state))) in
  progress (agent_operation agent_name) "error";;
  mret error_state.




(** [int(state.get("word_limit")) if state.get("word_limit") else None],
    with [None] when the conversion raises. *)
Definition to_int (env : Env) (v : pyval) : result Z :=
  match v with
  | PInt z => Ok z
  | PBool b => Ok (Z.b2z b)
  | PFloat (FNum q) => Ok (Qtrunc q)
  | PFloat _ => Raise "OverflowError: cannot convert float to integer"
  | PStr s => int_of_str env s
  | PStatus x => int_of_str env (status_value x)
  | PAgent a => int_of_str env (agent_value a)
  | _ => Raise "TypeError: int() argument must be a string or a real number"
  end.

Definition target_size (env : Env) (word_limit : pyval) : option Z :=
  if truthy word_limit then
    match to_int env word_limit with
    | Ok z => Some z
    | Raise _ => None
    end
  else None.

(** [if target] on the optional integer. *)
Definition target_set (target : option Z) : bool :=
  match target with
  | Some z => negb (z =? 0)
  | None => false
  end.

(** ** The validation stage, [src/agents/report_validation_agent.py] *)

(** The dictionary both the validation and the revision stage store under
    ["quality_metrics"]: the old entries, overwritten by the new metrics. *)
Definition merged_metrics `{PyLib} (old : list (string * pyval))
    (m : QualityMetrics) (score_key : string) : list (string * pyval) :=
  dict_update (dict_update old (to_dict m))
    [("overall_score", PFloat (overall_score m));
     (score_key, PFloat (overall_score m));
     ("word_count_accuracy", PBool (word_count_accuracy m));
     ("actual_word_count", PInt (actual_word_count m));
     ("major_issues", major_issues m);
     ("feedback", feedback m)].

(** [{**value}]: only a mapping unpacks. *)
Definition as_mapping (v : pyval) : result (list (string * pyval)) :=
  match v with
  | PDict d => Ok d
  | _ => Raise "TypeError: object is not a mapping"
  end.


(** ** The revision stage, [src/agents/revision_agent.py] *)

Definition _execute_smart_revisions (env : Env) (report : string)
    (quality_metrics : QualityMetrics) (target_length : pyval) : M string :=
  try_except
    (revision_strategy ← lift (plan_revision env quality_metrics);
     response ←
       call_llm env "agent.revision"
         (PromptSmartRevision revision_strategy report quality_metrics
            target_length);
     let revised_content := rm_only_think env response in
     progress "agent.revision" "done";;
     mret revised_content)
    (fun _ => mret report).

(** What the comparison of the two scores keeps: the report, the metrics
    to store (none when the original is kept), the message of the warning
    and the status. *)
Record selection := {
  kept_report : string;
  kept_metrics : option QualityMetrics;
  score_message : string;
  status_after_revision : ValidationStatus;
}.

Definition select_version (env : Env) (original_report revised_report : string)
    (original_score : pyval) (revised_quality_metrics : QualityMetrics)
    (revised_passes_check : bool) : result selection :=
  let revised_score := overall_score revised_quality_metrics in
  match
    (if revised_passes_check then float_ge_value revised_score original_score
     else Ok false)
  with
  | Raise e => Raise e
  | Ok true =>
      Ok {| kept_report := revised_report;
            kept_metrics := Some revised_quality_metrics;
            score_message :=
              "修订后评分更高且满足要求 ("
              ++ format_float env ".1f" (PFloat revised_score) ++ " >= "
              ++ format_float env ".1f" original_score ++ ")，采用修订版本";
            status_after_revision := VALIDATED |}
  | Ok false =>
      match float_gt_value revised_score original_score with
      | Raise e => Raise e
      | Ok true =>
          Ok {| kept_report := revised_report;
                kept_metrics := Some revised_quality_metrics;
                score_message :=
                  "修订后评分更高 ("
                  ++ format_float env ".1f" (PFloat revised_score) ++ " > "
                  ++ format_float env ".1f" original_score ++ ")，采用修订版本";
                status_after_revision := NEEDS_REVISION |}
      | Ok false =>
          Ok {| kept_report := original_report;
                kept_metrics := None;
                score_message :=
                  "原版本评分更高 ("
                  ++ format_float env ".1f" original_score ++ " >= "
                  ++ format_float env ".1f" (PFloat revised_score) ++ ")，保留原版本";
                status_after_revision := NEEDS_REVISION |}
      end
  end.

(** The automatic adjustment that follows the selection: one more call of
    the model on the candidate and one more evaluation.  Their results are
    bound to [revised_report] and [revised_quality_metrics], which nothing
    reads afterwards. *)
Definition adjust_size (env : Env) (state : GlobalState)
    (revised_report : string) (revised_quality_metrics : QualityMetrics)
  : M (string * QualityMetrics) :=
  let target := target_size env (get state "word_limit") in
  if target_set target && negb (word_count_accuracy revised_quality_metrics)
  then
    adjusted ←
      call_llm env "agent.revision"
        (PromptRevisionAdjust (default 0 target) revised_report);
    let revised_report := rm_only_think env adjusted in
    revised_quality_metrics ←
      evaluate_report_quality env revised_report (get state "word_limit")
        "revision_adjusted";
    mret (revised_report, revised_quality_metrics)
  else mret (revised_report, revised_quality_metrics).

Definition revision_node `{PyLib} (env : Env) (state : GlobalState)
  : M GlobalState :=
  try_except
    (progress "agent.revision" "start";;
     let max_revisions := 3 in
     let current_revision_count := get_or state "revision_count" (PInt 0) in
     at_ceiling ← lift (ge_int current_revision_count max_revisions);
     if (at_ceiling : bool) then
       progress "agent.revision" "skip";;
       warnings ←
         lift (list_plus (get_or state "warnings" (PList []))
                 [PStr "已达到最大修订次数 3，停止修订"]);
       mret (<["warnings" := warnings]>
               (<["validation_status" := PStatus VALIDATED]>
                  (<["current_agent" := PAgent REVISION]> state)))
     else
       revised_before ← lift (gt_int current_revision_count 0);
       if (revised_before : bool)
          && negb (eq_status (get state "validation_status") NEEDS_REVISION)
       then
         progress "agent.revision" "skip";;
         mret (<["current_agent" := PAgent REVISION]> state)
       else if negb (truthy (get state "final_report")) then
         mret (<["last_updated" := start_time_or_last_updated state]>
                 (<["validation_status" := PStatus FAILED]>
                    (<["error_message" := PStr "无法修订报告：缺少最终报告"]>
                       (<["current_agent" := PAgent REVISION]> state))))
       else if negb (truthy (get state "error_message"))
               && eq_status (get state "validation_status") VALIDATED
       then mret state
       else
         let stored := get_or state "quality_metrics" (PDict []) in
         _ ← lift (get_method stored "feedback" (PStr ""));
         _ ← lift (get_method stored "major_issues" (PList []));
         report_value ← lift (getitem state "final_report");
         original_report ← lift (as_text report_value);
         original_score ← lift (get_method stored "overall_score" (PInt 0));
         current_quality_metrics ←
           evaluate_report_quality env original_report
             (get state "word_limit") "pre_revision";
         target_length ← lift (getitem state "word_limit");
         revised_report ←
           _execute_smart_revisions env original_report
             current_quality_metrics target_length;
         progress "agent.revision" "quality_evaluation";;
         revised_quality_metrics ←
           evaluate_report_quality env revised_report
             (get state "word_limit") "revision";
         revised_passes_check ←
           lift (should_report_pass_quality_check revised_quality_metrics);
         choice ←
           lift (select_version env original_report revised_report
                   original_score revised_quality_metrics
                   revised_passes_check);
         progress "agent.revision" "score_comparison";;
         _ ← adjust_size env state revised_report revised_quality_metrics;
         stamp ← datetime_now env;
         round ← lift (plus_one (get_or state "revision_count" (PInt 0)));
         warnings ←
           lift (list_plus (get_or state "warnings" (PList []))
                   [PStr ("已完成第" ++ str_of env round ++ "轮修订 - "
                          ++ score_message choice)]);
         let updated_state :=
           <["warnings" := warnings]>
             (<["validation_status" := PStatus (status_after_revision choice)]>
                (<["revision_count" := round]>
                   (<["last_updated" := PDatetime stamp]>
                      (<["current_agent" := PAgent REVISION]>
                         (<["final_report" := PStr (kept_report choice)]>
                            state))))) in
         updated_state ←
           match kept_metrics choice with
           | Some final_quality_metrics =>
               old ← lift (as_mapping stored);
               mret (<["quality_metrics" :=
                         PDict (merged_metrics old final_quality_metrics
                                  "revision_score")]> updated_state)
           | None => mret updated_state
           end;
         progress "agent.revision" "done";;
         mret updated_state)
    (fun e =>
       let error_state :=
         <["last_updated" := start_time_or_last_updated state]>
           (<["validation_status" := PStatus NEEDS_REVISION]>
              (<["error_message" := PStr ("修订失败: " ++ e)]>
                 (<["current_agent" := PAgent REVISION]> state))) in
       progress "agent.revision" "error";;
       mret error_state).

(** ** The understanding stage, [src/agents/problem_understanding_agent.py] *)

(** The doubles the literals [0.7] and [0.6] denote. *)
Definition DOMAIN_CONFIDENCE_THRESHOLD : pyfloat :=
  FNum (3152519739159347 # 4503599627370496).
Definition INTENT_CONFIDENCE_THRESHOLD : pyfloat :=
  FNum (5404319552844595 # 9007199254740992).

(** [DomainCategory(x)], [AnalysisIntent(x)] on what the classifier
    returns: the member itself, or [ValueError] on [None]. *)
Definition member {A} (x : option A) : result A :=
  match x with
  | Some a => Ok a
  | None => Raise "ValueError: None is not a valid member"
  end.

(** [requirements.get(k) if isinstance(requirements, dict)
     else requirements.k], evaluated for a progress event. *)
Definition has_fields (requirements : pyval) : result unit :=
  match requirements with
  | PDict _ | PQuery _ => Ok tt
  | _ => Raise "AttributeError: object has no attribute 'domain'"
  end.

Definition problem_understanding_node (env : Env) (state : GlobalState)
  : M GlobalState :=
  try_except
    (progress "agent.problem_understanding" "start";;
     if truthy (get state "requirements") then
       progress "agent.problem_understanding" "skip";;
       mret (<["current_agent" := PAgent UNDERSTANDING]> state)
     else
       query ← lift (getitem state "user_query");
       by_domain ← lift (classify_domain_rule_based env query);
       by_intent ← lift (classify_intent_rule_based env query);
       let '(domain_found, domain_confidence, domain_keywords) :=
         (by_domain : option DomainCategory * pyfloat * list string) in
       let '(intent_found, intent_confidence, intent_keywords) :=
         (by_intent : option AnalysisIntent * pyfloat * list string) in
       let use_rule_domain :=
         float_ge domain_confidence DOMAIN_CONFIDENCE_THRESHOLD in
       let use_rule_intent :=
         float_ge intent_confidence INTENT_CONFIDENCE_THRESHOLD in
       if use_rule_intent && use_rule_domain then
         rule_domain ← lift (member domain_found);
         rule_intent ← lift (member intent_found);
         let requirements :=
           {| domain := rule_domain; analysis_intent := rule_intent |} in
         warnings ←
           lift (list_plus (get_or state "warnings" (PList []))
                   [PStr ("使用规则识别，领域置信度: "
                          ++ format_float env ".2f" (PFloat domain_confidence)
                          ++ ", 意图置信度: "
                          ++ format_float env ".2f" (PFloat intent_confidence))]);
         let updated_state :=
           <["warnings" := warnings]>
             (<["last_updated" := start_time_or_last_updated state]>
                (<["current_agent" := PAgent UNDERSTANDING]>
                   (<["requirements" := PQuery requirements]> state))) in
         progress "agent.problem_understanding" "done";;
         mret updated_state
       else
         let existing_analysis_parts :=
           if use_rule_domain then
             ["domain: " ++ str_of env (PFloat domain_confidence);
              "domain keywords: " ++ String.concat ", " domain_keywords]
           else if use_rule_intent then
             ["intent: " ++ str_of env (PFloat intent_confidence);
              "intent keywords: " ++ String.concat ", " intent_keywords]
           else [] in
         response_content ←
           call_llm env "agent.problem_understanding"
             (PromptUnderstanding existing_analysis_parts query);
         requirements ← lift (parse_requirements env response_content);
         _ ← lift (has_fields requirements);
         progress "agent.problem_understanding" "parse_result";;
         let updated_state :=
           <["last_updated" := start_time_or_last_updated state]>
             (<["current_agent" := PAgent UNDERSTANDING]>
                (<["requirements" := requirements]> state)) in
         progress "agent.problem_understanding" "done";;
         mret updated_state)
    (fun e =>
       create_error_state env state UNDERSTANDING ("题目解析失败: " ++ e) FAILED).

(** ** The planning stage, [src/agents/structure_planning_agent.py] *)




(** ** The knowledge-retrieval stage and its section fan-out,
       [src/agents/knowledge_retrieval_agent.py] *)

(** The characters of a string held as UTF-8: a continuation byte
    (10xxxxxx) extends the character before it. *)
Definition starts_with_continuation (text : string) : bool :=
  match text with
  | String c _ =>
      ((128 <=? Ascii.N_of_ascii c) && (Ascii.N_of_ascii c <? 192))%N
  | EmptyString => false
  end.

Fixpoint utf8_chars (bytes : list Ascii.ascii) : list string :=
  match bytes with
  | [] => []
  | b :: rest =>
      match utf8_chars rest with
      | next :: chars =>
          if starts_with_continuation next then String b next :: chars
          else String b EmptyString :: next :: chars
      | [] => [String b EmptyString]
      end
  end.

(** [list(value)]. *)
Definition py_list (v : pyval) : result (list pyval) :=
  match v with
  | PList l => Ok l
  | PDict d => Ok (map (fun kv => PStr (fst kv)) d)
  | PStr s => Ok (map PStr (utf8_chars (String.list_ascii_of_string s)))
  | _ => Raise "TypeError: object is not iterable"
  end.

(** [title in processed_sections]. *)
Definition title_in (title : string) (processed_sections : list pyval) : bool :=
  existsb (fun v => bool_decide (as_str v = Some title)) processed_sections.

Definition update_section_draft_report (env : Env) (state : GlobalState)
    (section_title section_content : string) : GlobalState :=
  let draft_report :=
    if truthy (get state "draft_report") then
      match as_str (get state "draft_report") with
      | Some text => text
      | None => str_of env (get state "draft_report")
      end
    else "" in
  let separator :=
    if String.eqb draft_report "" then "" else newline ++ newline in
  <["draft_report" :=
      PStr (draft_report ++ separator ++ "[" ++ section_title ++ "]"
            ++ newline ++ section_content)]> state.

(** The domain named in the prompt of a section. *)
Definition section_domain (requirements : pyval) : pyval :=
  match requirements with
  | PQuery q => PStr (domain_value (domain q))
  | PDict d => default (PStr "通用") (dict_get d "domain")
  | _ => PStr "通用"
  end.

Definition generate_final_content (env : Env) (section : ReportSection)
    (state : GlobalState) (external_sources : list string) : M string :=
  requirements ← lift (getitem state "requirements");
  query ← lift (getitem state "user_query");
  call_llm env "agent.knowledge_retrieval"
    (PromptKnowledgeSection (section_domain requirements) query
       (title section) (key_questions section) external_sources).

(** A worker of the pool, [_work(sec)]: it writes two keys of the shared
    state and produces the content of its section, or the exception its
    future holds. *)
Definition run_worker (env : Env) (external_resources : list string)
    (sec : ReportSection) (shared : GlobalState * list event)
  : (string * result string) * (GlobalState * list event) :=
  let '(state, tr) := shared in
  let state := <["active_section" := PStr (title sec)]> state in
  let '(stamp, tr) := (now env tr, (tr ++ [EvNow])%list) in
  let state := <["last_updated" := PDatetime stamp]> state in
  let '(outcome, tr) :=
    generate_final_content env sec state external_resources tr in
  ((title sec, outcome), (state, tr)).

(** The pool runs every submitted task; the workers are taken one after
    the other, in the order in which their futures complete. *)
Fixpoint run_workers (env : Env) (external_resources : list string)
    (tasks : list ReportSection) (shared : GlobalState * list event)
  : list (string * result string) * (GlobalState * list event) :=
  match tasks with
  | [] => ([], shared)
  | sec :: rest =>
      let '(future, shared) := run_worker env external_resources sec shared in
      let '(futures, shared) := run_workers env external_resources rest shared in
      (future :: futures, shared)
  end.

(** [for fut in as_completed(tasks)]: the first exception ends the loop. *)
Fixpoint collect_sections (env : Env) (futures : list (string * result string))
    (processed_sections : list pyval) (shared : GlobalState * list event)
  : result (list pyval) * (GlobalState * list event) :=
  match futures with
  | [] => (Ok processed_sections, shared)
  | (_, Raise e) :: _ => (Raise e, shared)
  | (section_title, Ok section_content) :: rest =>
      let '(state, tr) := shared in
      let tr :=
        (tr ++ [EvProgress "agent.knowledge_retrieval" "section_done"])%list in
      let state :=
        update_section_draft_report env state section_title section_content in
      collect_sections env rest
        (processed_sections ++ [PStr section_title])%list (state, tr)
  end.

(** The tasks in the order their futures complete. *)
Definition in_completion_order (env : Env) (tr : list event)
    (tasks : list ReportSection) : list ReportSection :=
  omap (fun i => tasks !! i) (completion_order env tr (length tasks)).

(** The body of the [try] block: its outcome and the shared state as the
    workers and the loop left it. *)
Definition knowledge_retrieval_body (env : Env)
    (processed_sections : list pyval) (shared : GlobalState * list event)
  : result GlobalState * (GlobalState * list event) :=
  let '(state, tr) := shared in
  if negb (truthy (get state "structure")) then
    (Ok (<["last_updated" := start_time_or_last_updated state]>
           (<["validation_status" := PStatus FAILED]>
              (<["error_message" := PStr "无法提取知识：缺少报告结构"]>
                 (<["current_agent" := PAgent KNOWLEDGE]> state)))),
     shared)
  else
    match get state "structure" with
    | PStructure report_structure =>
        if negb (bool_decide (length (sections report_structure) = 0%nat))
           && (length (sections report_structure) <=? length processed_sections)%nat
        then (Ok (<["current_agent" := PAgent KNOWLEDGE]> state), shared)
        else
          let tr :=
            (tr ++ [EvProgress "agent.knowledge_retrieval"
                      "external_search_start"])%list in
          match getitem state "user_query" with
          | Raise e => (Raise e, (state, tr))
          | Ok query =>
              match run_deep_search env query tr with
              | (Raise e, tr) => (Raise e, (state, tr))
              | (Ok external_resources, tr) =>
                  let tr :=
                    (tr ++ [EvProgress "agent.knowledge_retrieval"
                              "external_search_done"])%list in
                  match section_concurrency env with
                  | Raise e => (Raise e, (state, tr))
                  | Ok concurrency =>
                      if concurrency <=? 0 then
                        (Raise "ValueError: max_workers must be greater than 0",
                         (state, tr))
                      else
                        let tasks :=
                          filter
                            (fun sec =>
                               title_in (title sec) processed_sections = false)
                            (sections report_structure) in
                        let '(futures, shared) :=
                          run_workers env external_resources
                            (in_completion_order env tr tasks) (state, tr) in
                        match
                          collect_sections env futures processed_sections shared
                        with
                        | (Raise e, shared) => (Raise e, shared)
                        | (Ok processed_sections, (state, tr)) =>
                            let '(stamp, tr) := (now env tr, (tr ++ [EvNow])%list) in
                            (Ok (<["processed_sections" := PList processed_sections]>
                                   (<["warnings" := get_or state "warnings" (PList [])]>
                                      (<["last_updated" := PDatetime stamp]>
                                         (<["current_agent" := PAgent KNOWLEDGE]>
                                            state)))),
                             (state, tr))
                        end
                  end
              end
          end
    | _ => (Raise "AttributeError: object has no attribute 'sections'", shared)
    end.

Definition knowledge_retrieval_node (env : Env) (state : GlobalState)
  : M GlobalState :=
  fun tr =>
    match py_list (get_or state "processed_sections" (PList [])) with
    | Raise e => (Raise e, tr)
    | Ok processed_sections =>
        match knowledge_retrieval_body env processed_sections (state, tr) with
        | (Ok updated_state, (_, tr)) => (Ok updated_state, tr)
        | (Raise e, (state, tr)) =>
            create_error_state env state KNOWLEDGE ("知识提取失败: " ++ e)
              FAILED tr
        end
    end.

(** ** The writing stage, [src/agents/writing_polishing_agent.py] *)


(** ** The final stage, [src/agents/generate_report_agent.py] *)





(** ** The checkpoint store, [src/utils/checkpoint.py] *)

(** [model_dump()] of the pydantic models: the fields in the order of their
    declaration; a member of a string enumeration is written as its value. *)
Definition dump_query (q : AnalysisQuery) : pyval :=
  PDict [("domain", PStr (domain_value (domain q)));
         ("analysis_intent", PStr (intent_value (analysis_intent q)))].

Definition dump_section (sec : ReportSection) : pyval :=
  PDict [("title", PStr (title sec));
         ("key_questions", PList (map PStr (key_questions sec)));
         ("content", PStr (content sec));
         ("sources", PList (map PStr (sources sec)));
         ("status", PStr (section_status_value (status sec)))].

Definition dump_structure (r : ReportStructure) : pyval :=
  PDict [("template_type", PStr (template_type r));
         ("sections", PList (map dump_section (sections r)));
         ("executive_summary_required", PBool (executive_summary_required r));
         ("recommendations_required", PBool (recommendations_required r));
         ("target_length", PInt (target_length r));
         ("length_tolerance", PInt (length_tolerance r))].

Definition _serialize_datetime `{PyLib} (value : datetime) : string :=
  isoformat value.

Definition _deserialize_datetime `{PyLib} (value : string) : result datetime :=
  match fromisoformat value with
  | Some t => Ok t
  | None => Raise "ValueError: Invalid isoformat string"
  end.

Fixpoint to_serializable `{PyLib} (value : pyval) : pyval :=
  match value with
  | PNone => PNone
  | PDatetime t => PStr (_serialize_datetime t)
  | PStatus v => PStr (status_value v)
  | PAgent a => PStr (agent_value a)
  | PQuery q => dump_query q
  | PStructure r => dump_structure r
  | PList l => PList (map to_serializable l)
  | PDict d => PDict (map (fun kv => (fst kv, to_serializable (snd kv))) d)
  | PBool _ | PInt _ | PFloat _ | PStr _ => value
  end.

Definition serialize_state `{PyLib} (state : GlobalState) : GlobalState :=
  to_serializable <$> filter (fun kv => is_none (snd kv) = false) state.

(** The alias table of the analysis intent. *)
Definition alias_map : list (string * string) :=
  [("概览", "overview"); ("总体概览", "overview"); ("overview", "overview");
   ("对比", "comparison"); ("比较", "comparison");
   ("comparison", "comparison");
   ("因果分析", "causal_analysis"); ("因果", "causal_analysis");
   ("causal_analysis", "causal_analysis");
   ("趋势预测", "trend_prediction"); ("预测", "trend_prediction");
   ("trend_prediction", "trend_prediction");
   ("利弊评估", "pros_cons"); ("优缺点", "pros_cons");
   ("pros_cons", "pros_cons");
   ("解决方案", "solution_proposal"); ("方案建议", "solution_proposal");
   ("solution_proposal", "solution_proposal")].

(** [item.name.lower()]. *)
Definition intent_name_lower (i : AnalysisIntent) : string :=
  match i with
  | OVERVIEW => "overview"
  | COMPARISON => "comparison"
  | CAUSAL_ANALYSIS => "causal_analysis"
  | TREND_PREDICTION => "trend_prediction"
  | PROS_CONS => "pros_cons"
  | SOLUTION_PROPOSAL => "solution_proposal"
  end.

Definition coerce_analysis_intent `{PyLib} (value : pyval) : AnalysisIntent :=
  match as_str value with
  | Some text =>
      let normalized := strip_lower text in
      let target :=
        default normalized
          (snd <$> List.find (fun kv => String.eqb (fst kv) normalized)
                     alias_map) in
      match intent_of_value target with
      | Some item => item
      | None =>
          default OVERVIEW
            (List.find (fun item => String.eqb (intent_name_lower item) normalized)
               all_intents)
      end
  | None => OVERVIEW
  end.

(** Validation of the fields of the pydantic models on construction.
    Unknown keys are ignored; a missing field without a default, or a
    value that does not convert to the declared type of its field, is a
    [ValidationError].  A string field takes a string and a member of an
    enumeration its value.  The conversions to [int] and [bool] are below. *)
Definition validate_query (d : list (string * pyval)) : result AnalysisQuery :=
  match ((dict_get d "domain" ≫= as_str) ≫= domain_of_value
          : option DomainCategory),
        ((dict_get d "analysis_intent" ≫= as_str) ≫= intent_of_value
          : option AnalysisIntent) with
  | Some dom, Some intent =>
      Ok {| domain := dom; analysis_intent := intent |}
  | _, _ => Raise "ValidationError: AnalysisQuery"
  end.

Definition str_list (v : pyval) : option (list string) :=
  match v with
  | PList l => mapM as_str l
  | _ => None
  end.

(** The value of a string of decimal digits after the digits read so
    far. *)
Fixpoint digits_value (read : Z) (digits : list Ascii.ascii) : option Z :=
  match digits with
  | [] => Some read
  | c :: rest =>
      let n := Ascii.N_of_ascii c in
      if ((48 <=? n) && (n <=? 57))%N
      then digits_value (10 * read + (Z.of_N n - 48)) rest
      else None
  end.

(** A decimal numeral with an optional sign. *)
Definition int_of_numeral (s : string) : option Z :=
  match String.list_ascii_of_string s with
  | [] => None
  | c :: rest =>
      if Ascii.eqb c "-" then
        match rest with [] => None | _ => Z.opp <$> digits_value 0 rest end
      else if Ascii.eqb c "+" then
        match rest with [] => None | _ => digits_value 0 rest end
      else digits_value 0 (c :: rest)
  end.

(** A letter of [A-Z] in lower case. *)
Definition ascii_lower (c : Ascii.ascii) : Ascii.ascii :=
  let n := Ascii.N_of_ascii c in
  if ((65 <=? n) && (n <=? 90))%N then Ascii.ascii_of_N (n + 32) else c.

Definition str_lower (s : string) : string :=
  String.string_of_list_ascii (map ascii_lower (String.list_ascii_of_string s)).

(** The strings a [bool] field reads as true and as false, whatever their
    case. *)
Definition true_strings : list string :=
  ["1"; "on"; "t"; "true"; "y"; "yes"].
Definition false_strings : list string :=
  ["0"; "off"; "f"; "false"; "n"; "no"].

(** A [bool] field takes a boolean, the numbers 0 and 1 and the strings
    above. *)
Definition as_bool (v : pyval) : option bool :=
  match v with
  | PBool b => Some b
  | PInt z => if z =? 0 then Some false else if z =? 1 then Some true else None
  | PFloat (FNum q) =>
      if Qeq_bool q 0 then Some false
      else if Qeq_bool q 1 then Some true else None
  | PStr s =>
      if existsb (String.eqb (str_lower s)) true_strings then Some true
      else if existsb (String.eqb (str_lower s)) false_strings then Some false
      else None
  | _ => None
  end.

(** An [int] field takes an integer, a boolean (as 0 or 1), a float
    without a fractional part and a string that is a decimal numeral. *)
Definition as_int (v : pyval) : option Z :=
  match v with
  | PInt z => Some z
  | PBool b => Some (Z.b2z b)
  | PFloat (FNum q) =>
      if Qeq_bool q (inject_Z (Qtrunc q)) then Some (Qtrunc q) else None
  | PStr s => int_of_numeral s
  | _ => None
  end.

Definition validate_section (v : pyval) : option ReportSection :=
  match v with
  | PDict d =>
      section_title ← dict_get d "title" ≫= as_str;
      questions ← dict_get d "key_questions" ≫= str_list;
      body ← dict_get d "content" ≫= as_str;
      cited ←
        match dict_get d "sources" with
        | Some v => str_list v
        | None => Some []
        end;
      state_of_section ←
        match dict_get d "status" with
        | Some v => as_str v ≫= section_status_of_value
        | None => Some Outlined
        end;
      Some {| title := section_title; key_questions := questions;
              content := body; sources := cited;
              status := state_of_section |}
  | _ => None
  end.

Definition validate_structure (d : list (string * pyval))
  : result ReportStructure :=
  let validated : option ReportStructure :=
    template ← dict_get d "template_type" ≫= as_str;
    planned ←
      match dict_get d "sections" with
      | Some (PList l) => mapM validate_section l
      | _ => None
      end;
    summary ←
      match dict_get d "executive_summary_required" with
      | Some v => as_bool v
      | None => Some true
      end;
    recommendations ←
      match dict_get d "recommendations_required" with
      | Some v => as_bool v
      | None => Some true
      end;
    target ← dict_get d "target_length" ≫= as_int;
    tolerance ←
      match dict_get d "length_tolerance" with
      | Some v => as_int v
      | None => Some 0
      end;
    Some {| template_type := template; sections := planned;
            executive_summary_required := summary;
            recommendations_required := recommendations;
            target_length := target; length_tolerance := tolerance |} in
  match validated with
  | Some r => Ok r
  | None => Raise "ValidationError: ReportStructure"
  end.

Definition from_serializable `{PyLib} (key : string) (value : pyval)
  : result pyval :=
  if is_none value then Ok PNone
  else
      if (String.eqb key "start_time" || String.eqb key "last_updated")
         && bool_decide (is_Some (as_str value))
      then PDatetime <$> _deserialize_datetime (default "" (as_str value))
      else if String.eqb key "validation_status"
              && bool_decide (is_Some (as_str value))
      then
        match (as_str value ≫= status_of_value : option ValidationStatus) with
        | Some v => Ok (PStatus v)
        | None => Raise "ValueError: not a valid ValidationStatus"
        end
      else if String.eqb key "current_agent"
              && bool_decide (is_Some (as_str value))
      then
        match (as_str value ≫= agent_of_value : option AgentName) with
        | Some a => Ok (PAgent a)
        | None => Raise "ValueError: not a valid AgentName"
        end
      else
        match value with
        | PDict d =>
            if String.eqb key "requirements" then
              let patched :=
                match dict_get d "analysis_intent" with
                | Some intent =>
                    dict_set d "analysis_intent"
                      (PStr (intent_value (coerce_analysis_intent intent)))
                | None => d
                end in
              PQuery <$> validate_query patched
            else if String.eqb key "structure" then
              PStructure <$> validate_structure d
            else Ok value
        | _ => Ok value
        end.

(** [for k, v in data.items(): restored[k] = from_serializable(k, v)]. *)
Fixpoint restore_items `{PyLib} (items : list (string * pyval))
    (restored : GlobalState) : result GlobalState :=
  match items with
  | [] => Ok restored
  | (k, v) :: rest =>
      match from_serializable k v with
      | Ok v' => restore_items rest (<[k := v']> restored)
      | Raise e => Raise e
      end
  end.

Definition deserialize_state `{PyLib} (data : list (string * pyval))
  : result GlobalState :=
  restore_items data ∅.

(** What [json.dump] makes of a value; [TypeError] for an object that is
    not JSON serializable.  A member of a string enumeration is a [str]. *)
Fixpoint json_encode (v : pyval) : result json :=
  match v with
  | PNone => Ok JNull
  | PBool b => Ok (JBool b)
  | PInt z => Ok (JInt z)
  | PFloat f => Ok (JFloat f)
  | PStr s => Ok (JStr s)
  | PStatus x => Ok (JStr (status_value x))
  | PAgent a => Ok (JStr (agent_value a))
  | PList l =>
      (fix items (l : list pyval) : result json :=
         match l with
         | [] => Ok (JArr [])
         | x :: l' =>
             match json_encode x, items l' with
             | Ok j, Ok (JArr js) => Ok (JArr (j :: js))
             | Raise e, _ => Raise e
             | _, Raise e => Raise e
             | _, _ => Raise "TypeError"
             end
         end) l
  | PDict d =>
      (fix members (d : list (string * pyval)) : result json :=
         match d with
         | [] => Ok (JObj [])
         | (k, x) :: d' =>
             match json_encode x, members d' with
             | Ok j, Ok (JObj js) => Ok (JObj ((k, j) :: js))
             | Raise e, _ => Raise e
             | _, Raise e => Raise e
             | _, _ => Raise "TypeError"
             end
         end) d
  | PDatetime _ | PQuery _ | PStructure _ =>
      Raise "TypeError: Object is not JSON serializable"
  end.

(** What [json.load] makes of a document. *)
Fixpoint json_decode (j : json) : pyval :=
  match j with
  | JNull => PNone
  | JBool b => PBool b
  | JInt z => PInt z
  | JFloat f => PFloat f
  | JStr s => PStr s
  | JArr items => PList (map json_decode items)
  | JObj members => PDict (map (fun kv => (fst kv, json_decode (snd kv))) members)
  end.

(** The file system: the text at each path.  Writing a file is a sequence
    of steps, and an interrupted write has performed only some of them. *)
Inductive fs_step `{PyLib} :=
  | FsOpenWrite (path : string)
  | FsWrite (path : string) (chunk : text).

Definition fs_apply `{PyLib} (fs : gmap string text) (step : fs_step)
  : gmap string text :=
  match step with
  | FsOpenWrite path => <[path := text_empty]> fs
  | FsWrite path chunk =>
      <[path := text_append (default text_empty (fs !! path)) chunk]> fs
  end.

Definition fs_run `{PyLib} (steps : list fs_step) (fs : gmap string text)
  : gmap string text :=
  fold_left fs_apply steps fs.

(** The payload of a checkpoint. *)
Definition checkpoint_payload `{PyLib} (state : GlobalState)
    (saved_at : datetime) : pyval :=
  PDict [("state", PDict (map_to_list (serialize_state state)));
         ("meta", PDict [("saved_at", PStr (isoformat saved_at));
                         ("version", PInt 1)])].

(** The steps of [save_checkpoint]: the target is opened for writing, which
    empties it, and the document is written into it chunk by chunk.  When
    the encoder raises the exception is logged and the run goes on; the file
    has been opened by then. *)
Definition save_checkpoint_steps `{PyLib} (state : GlobalState)
    (saved_at : datetime) (path : string) : list fs_step :=
  match json_encode (checkpoint_payload state saved_at) with
  | Ok document => FsOpenWrite path :: map (FsWrite path) (json_render document)
  | Raise _ => [FsOpenWrite path]
  end.

Definition save_checkpoint `{PyLib} (state : GlobalState) (saved_at : datetime)
    (path : string) (fs : gmap string text) : gmap string text :=
  fs_run (save_checkpoint_steps state saved_at path) fs.

Definition load_checkpoint `{PyLib} (path : string) (fs : gmap string text)
  : result GlobalState :=
  match fs !! path with
  | None => Raise "FileNotFoundError"
  | Some written =>
      match json_parse written with
      | None => Raise "JSONDecodeError"
      | Some document =>
          let payload := json_decode document in
          match get_method payload "state" payload with
          | Raise e => Raise e
          | Ok (PDict data) => deserialize_state data
          | Ok _ => Raise "AttributeError: object has no attribute 'items'"
          end
      end
  end.

(** The state [create_init_state] of [app.py] builds. *)
Definition create_init_state (user_query : string) (started : datetime)
  : GlobalState :=
  list_to_map
    [("user_query", PStr user_query);
     ("requirements", PNone);
     ("structure", PNone);
     ("knowledge_base", PDict []);
     ("draft_report", PNone);
     ("final_report", PNone);
     ("validation_status", PStatus PENDING);
     ("revision_count", PInt 0);
     ("current_agent", PAgent COORDINATOR);
     ("active_section", PNone);
     ("processed_sections", PList []);
     ("start_time", PDatetime started);
     ("last_updated", PDatetime started);
     ("error_message", PNone);
     ("warnings", PList []);
     ("quality_metrics", PDict []);
     ("processing_time", PNone);
     ("word_limit", PInt 1091)].

(** ** A reference instance of the library routines *)

Module Reference.

(** The lexemes of a JSON text, separators and layout left out. *)
Inductive token :=
  | TNull
  | TBool (b : bool)
  | TInt (z : Z)
  | TFloat (f : pyfloat)
  | TStr (s : string)
  | TOpenArr | TCloseArr
  | TOpenObj | TCloseObj.

Fixpoint tokens (j : json) : list token :=
  match j with
  | JNull => [TNull]
  | JBool b => [TBool b]
  | JInt z => [TInt z]
  | JFloat f => [TFloat f]
  | JStr s => [TStr s]
  | JArr items =>
      TOpenArr ::
        ((fix each (l : list json) : list token :=
            match l with
            | [] => [TCloseArr]
            | x :: l' => (tokens x ++ each l')%list
            end) items)
  | JObj members =>
      TOpenObj ::
        ((fix each (l : list (string * json)) : list token :=
            match l with
            | [] => [TCloseObj]
            | (k, x) :: l' => TStr k :: (tokens x ++ each l')%list
            end) members)
  end.

Definition item_tokens : list json -> list token :=
  fix each (l : list json) : list token :=
    match l with
    | [] => [TCloseArr]
    | x :: l' => (tokens x ++ each l')%list
    end.

Definition member_tokens : list (string * json) -> list token :=
  fix each (l : list (string * json)) : list token :=
    match l with
    | [] => [TCloseObj]
    | (k, x) :: l' => TStr k :: (tokens x ++ each l')%list
    end.

Section Parser.
Variable parse_value : list token -> option (json * list token).

Fixpoint parse_items (fuel : nat) (ts : list token)
  : option (list json * list token) :=
  match fuel with
  | O => None
  | S fuel' =>
      match ts with
      | TCloseArr :: rest => Some ([], rest)
      | _ =>
          match parse_value ts with
          | Some (x, rest) =>
              match parse_items fuel' rest with
              | Some (xs, rest') => Some (x :: xs, rest')
              | None => None
              end
          | None => None
          end
      end
  end.

Fixpoint parse_members (fuel : nat) (ts : list token)
  : option (list (string * json) * list token) :=
  match fuel with
  | O => None
  | S fuel' =>
      match ts with
      | TCloseObj :: rest => Some ([], rest)
      | TStr k :: rest =>
          match parse_value rest with
          | Some (x, rest') =>
              match parse_members fuel' rest' with
              | Some (xs, rest'') => Some ((k, x) :: xs, rest'')
              | None => None
              end
          | None => None
          end
      | _ => None
      end
  end.
End Parser.

Fixpoint parse_value (fuel : nat) (ts : list token)
  : option (json * list token) :=
  match fuel with
  | O => None
  | S fuel' =>
      match ts with
      | TNull :: rest => Some (JNull, rest)
      | TBool b :: rest => Some (JBool b, rest)
      | TInt z :: rest => Some (JInt z, rest)
      | TFloat f :: rest => Some (JFloat f, rest)
      | TStr s :: rest => Some (JStr s, rest)
      | TOpenArr :: rest =>
          match parse_items (parse_value fuel') fuel' rest with
          | Some (items, rest') => Some (JArr items, rest')
          | None => None
          end
      | TOpenObj :: rest =>
          match parse_members (parse_value fuel') fuel' rest with
          | Some (members, rest') => Some (JObj members, rest')
          | None => None
          end
      | _ => None
      end
  end.

Definition parse (ts : list token) : option json :=
  match parse_value (S (length ts)) ts with
  | Some (j, []) => Some j
  | _ => None
  end.

(** ASCII white space and ASCII upper case, for [strip] and [lower]. *)
Definition is_space (c : Ascii.ascii) : bool :=
  let n := Ascii.N_of_ascii c in
  ((n =? 32) || (9 <=? n) && (n <=? 13) || (28 <=? n) && (n <=? 31))%N.

Definition lower_ascii (c : Ascii.ascii) : Ascii.ascii :=
  let n := Ascii.N_of_ascii c in
  if ((65 <=? n) && (n <=? 90))%N then Ascii.ascii_of_N (n + 32) else c.

Fixpoint lstrip (cs : list Ascii.ascii) : list Ascii.ascii :=
  match cs with
  | c :: cs' => if is_space c then lstrip cs' else cs
  | [] => []
  end.

Definition strip_lower_ascii (s : string) : string :=
  String.string_of_list_ascii
    (map lower_ascii
       (rev (lstrip (rev (lstrip (String.list_ascii_of_string s)))))).

Lemma lstrip_snake cs :
  lower_snake (String.string_of_list_ascii cs) = true -> lstrip cs = cs.
Proof.
  unfold lower_snake. rewrite String.list_ascii_of_string_of_list_ascii.
  destruct cs as [|c cs]; [reflexivity|]. cbn [forallb lstrip].
  intros [Hc _]%andb_prop. unfold is_space.
  destruct (Ascii.N_of_ascii c) as [|n] eqn:E; [discriminate|].
  replace (_ || _ || _)%bool with false; [reflexivity|].
  symmetry. apply Bool.not_true_is_false. intros Hspace.
  apply Bool.orb_true_iff in Hc, Hspace.
  rewrite !Bool.orb_true_iff, !Bool.andb_true_iff in *.
  rewrite ?N.leb_le, ?N.eqb_eq in *. lia.
Qed.

Lemma lower_ascii_snake cs :
  lower_snake (String.string_of_list_ascii cs) = true ->
  map lower_ascii cs = cs.
Proof.
  unfold lower_snake. rewrite String.list_ascii_of_string_of_list_ascii.
  induction cs as [|c cs IH]; [reflexivity|]. cbn [forallb map].
  intros [Hc Hcs]%andb_prop. rewrite IH by done. f_equal.
  unfold lower_ascii.
  replace (_ && _)%bool with false; [reflexivity|].
  symmetry. apply Bool.not_true_is_false. intros Hupper.
  rewrite !Bool.orb_true_iff, !Bool.andb_true_iff in *.
  rewrite ?N.leb_le, ?N.eqb_eq in *. lia.
Qed.

Lemma lower_snake_rev cs :
  lower_snake (String.string_of_list_ascii cs) = true ->
  lower_snake (String.string_of_list_ascii (rev cs)) = true.
Proof.
  unfold lower_snake. rewrite !String.list_ascii_of_string_of_list_ascii.
  rewrite !forallb_forall. intros Hall c Hin. apply Hall.
  by apply in_rev.
Qed.

Lemma strip_lower_ascii_snake s :
  lower_snake s = true -> strip_lower_ascii s = s.
Proof.
  intros Hsnake. unfold strip_lower_ascii.
  rewrite <- (String.string_of_list_ascii_of_string s) in Hsnake.
  rewrite (lstrip_snake _ Hsnake).
  rewrite (lstrip_snake _ (lower_snake_rev _ Hsnake)).
  rewrite rev_involutive, (lower_ascii_snake _ Hsnake).
  apply String.string_of_list_ascii_of_string.
Qed.

Lemma tokens_arr items : tokens (JArr items) = TOpenArr :: item_tokens items.
Proof. reflexivity. Qed.

Lemma tokens_obj members :
  tokens (JObj members) = TOpenObj :: member_tokens members.
Proof. reflexivity. Qed.

Lemma tokens_length j : (0 < length (tokens j))%nat.
Proof. destruct j; simpl; lia. Qed.

Lemma item_tokens_cons x xs :
  item_tokens (x :: xs) = (tokens x ++ item_tokens xs)%list.
Proof. reflexivity. Qed.

Lemma member_tokens_cons k x xs :
  member_tokens ((k, x) :: xs)
  = TStr k :: (tokens x ++ member_tokens xs)%list.
Proof. reflexivity. Qed.

Lemma item_tokens_length xs : (0 < length (item_tokens xs))%nat.
Proof.
  destruct xs as [|x xs]; [simpl; lia|].
  rewrite item_tokens_cons, length_app. pose proof (tokens_length x). lia.
Qed.

Lemma tokens_head_not_close j rest :
  match (tokens j ++ rest)%list with
  | TCloseArr :: _ | TCloseObj :: _ | [] => False
  | _ => True
  end.
Proof. destruct j; simpl; exact I. Qed.

(** With enough fuel the parser reads back what was written and leaves the
    rest of the input. *)
Lemma parse_items_tokens pv rest :
  forall n xs,
    (forall x r, In x xs -> pv (tokens x ++ r)%list = Some (x, r)) ->
    (length (item_tokens xs) <= n)%nat ->
    parse_items pv n (item_tokens xs ++ rest)%list = Some (xs, rest).
Proof.
  induction n as [|n IHn]; intros xs Hpv Hn.
  - pose proof (item_tokens_length xs). lia.
  - destruct xs as [|x xs]; [reflexivity|].
    rewrite item_tokens_cons, length_app in Hn.
    pose proof (tokens_length x). pose proof (item_tokens_length xs).
    rewrite item_tokens_cons, <- app_assoc. cbn [parse_items].
    pose proof (tokens_head_not_close x (item_tokens xs ++ rest)%list) as Hh.
    destruct (tokens x ++ item_tokens xs ++ rest)%list as [|t ts] eqn:E;
      [done|].
    assert (Hx : pv (t :: ts) = Some (x, (item_tokens xs ++ rest)%list))
      by (rewrite <- E; apply Hpv; left; reflexivity).
    assert (Hxs : parse_items pv n (item_tokens xs ++ rest)%list
                  = Some (xs, rest))
      by (apply IHn; [intros; apply Hpv; right; done | lia]).
    destruct t; try done; rewrite Hx, Hxs; reflexivity.
Qed.

Lemma parse_members_tokens pv rest :
  forall n xs,
    (forall x r, In x (map snd xs) -> pv (tokens x ++ r)%list = Some (x, r)) ->
    (length (member_tokens xs) <= n)%nat ->
    parse_members pv n (member_tokens xs ++ rest)%list = Some (xs, rest).
Proof.
  induction n as [|n IHn]; intros xs Hpv Hn.
  - destruct xs as [|[k x] xs]; simpl in Hn; lia.
  - destruct xs as [|[k x] xs]; [reflexivity|].
    rewrite member_tokens_cons in *. cbn [length] in Hn.
    rewrite length_app in Hn.
    cbn [app parse_members]. rewrite <- app_assoc.
    rewrite Hpv by (left; reflexivity).
    rewrite IHn; [reflexivity | intros; apply Hpv; right; done | lia].
Qed.

Lemma item_tokens_bound x xs :
  In x xs -> (length (tokens x) < length (item_tokens xs))%nat.
Proof.
  induction xs as [|y xs IH]; [done|].
  rewrite item_tokens_cons, length_app.
  pose proof (item_tokens_length xs).
  intros [->|Hin]; [lia|]. specialize (IH Hin). lia.
Qed.

Lemma member_tokens_bound x xs :
  In x (map snd xs) -> (length (tokens x) < length (member_tokens xs))%nat.
Proof.
  induction xs as [|[k y] xs IH]; [done|].
  rewrite member_tokens_cons. cbn [length map snd]. rewrite length_app.
  intros [->|Hin]; [lia|]. specialize (IH Hin). lia.
Qed.

Lemma parse_value_tokens fuel :
  forall j rest,
    (length (tokens j) < fuel)%nat ->
    parse_value fuel (tokens j ++ rest)%list = Some (j, rest).
Proof.
  induction fuel as [|fuel IH]; intros j rest Hlen; [lia|].
  destruct j as [| b | z | f | s | items | members]; try reflexivity.
  - rewrite tokens_arr in *. cbn [length] in Hlen. cbn [parse_value app].
    rewrite parse_items_tokens; [reflexivity | | lia].
    intros x r Hin. apply IH.
    pose proof (item_tokens_bound x items Hin). lia.
  - rewrite tokens_obj in *. cbn [length] in Hlen. cbn [parse_value app].
    rewrite parse_members_tokens; [reflexivity | | lia].
    intros x r Hin. apply IH.
    pose proof (member_tokens_bound x members Hin). lia.
Qed.

Lemma parse_tokens j : parse (tokens j) = Some j.
Proof.
  unfold parse.
  rewrite <- (app_nil_r (tokens j)) at 2.
  rewrite parse_value_tokens by lia. reflexivity.
Qed.

Lemma fold_chunks (ts acc : list token) :
  fold_left app (map (fun t => [t]) ts) acc = (acc ++ ts)%list.
Proof.
  revert acc. induction ts as [|t ts IH]; intros acc; simpl.
  - by rewrite app_nil_r.
  - rewrite IH, <- app_assoc. reflexivity.
Qed.

(** Timestamps are rendered as the decimal numeral of their microseconds;
    a JSON text is the list of its lexemes and is written one lexeme at a
    time. *)
#[global, refine] Instance lib : PyLib := {|
  isoformat t := DecimalString.NilEmpty.string_of_int (Z.to_int t);
  fromisoformat s := Z.of_int <$> DecimalString.NilEmpty.int_of_string s;
  text := list token;
  text_empty := [];
  text_append := app;
  json_render j := map (fun t => [t]) (tokens j);
  json_parse := parse;
  strip_lower := strip_lower_ascii;
|}.
Proof.
  - intros t. rewrite DecimalString.NilEmpty.isi. simpl.
    f_equal. apply DecimalZ.of_to.
  - intros j _. rewrite fold_chunks. apply parse_tokens.
  - apply strip_lower_ascii_snake.
Defined.

End Reference.

(** ** Scripted environments, for running the model on concrete inputs *)

(** An environment given by what the model answers to each prompt and what
    the JSON reader makes of each answer.  The clock advances with every
    event, the search finds nothing, the pool has two workers and its
    futures complete in the order [order] gives; the keyword classifier
    finds the general domain and the overview intent with the confidence
    [confidence]. *)
Definition scripted_env (answer : prompt -> result string)
    (reading : string -> result pyval) (order : nat -> list nat)
    (confidence : pyfloat) : Env := {|
  llm := fun _ _ p => answer p;
  deep_search := fun _ _ => Ok [];
  now := fun tr => 1000 + Z.of_nat (length tr);
  section_concurrency := Ok 2;
  export_report := fun _ _ => Ok [];
  strip_think := fun s => s;
  json_reformat := fun _ => None;
  json_loads := reading;
  literal_eval := fun _ => Raise "SyntaxError";
  regex_scrape := fun _ => Raise "AttributeError";
  float_of_str := fun _ => Raise "ValueError";
  int_of_str := fun _ => Raise "ValueError";
  format_float := fun _ _ => "#";
  str_of := fun _ => "#";
  template_sections := fun _ _ => Ok "";
  classify_domain_rule_based := fun _ => Ok (Some GENERAL, confidence, []);
  classify_intent_rule_based := fun _ => Ok (Some OVERVIEW, confidence, []);
  parse_requirements := reading;
  parse_sections := fun _ => Ok [];
  plan_revision := fun _ => Ok "conservative";
  completion_order := fun _ n => order n;
|}.

(** The model is unreachable: every call raises. *)
Definition offline_env : Env :=
  scripted_env (fun _ => Raise "LLM调用超时") (fun _ => Raise "JSONDecodeError")
    (fun n => seq 0 n) (FNum 0).

(** ** Predicates and inputs of the statements *)

(** The order of the floats: NaN is not comparable with anything. *)
Definition float_leq (a b : pyfloat) : Prop :=
  match a, b with
  | FNaN, _ | _, FNaN => False
  | FNegInf, _ => True
  | _, FPosInf => True
  | FNum x, FNum y => (x <= y)%Q
  | _, _ => False
  end.

(** The two scenarios of the rule and one step of its monotonicity, on
    concrete metrics. *)
Definition metrics_with (score : Q) (issues : list pyval) : QualityMetrics :=
  {| overall_score := FNum score;
     detailed_scores := PDict [];
     major_issues := PList issues;
     feedback := PStr "";
     word_count_accuracy := true;
     actual_word_count := 0;
     evaluation_method := "validation";
     timestamp := 0 |}.

(** [wp m tr Q E]: run on the trace [tr], the computation [m] either
    returns a value and a trace that satisfy [Q], or raises with a message
    and a trace that satisfy [E]. *)
Definition wp {A} (m : M A) (tr : list event)
    (Q : A -> list event -> Prop) (E : string -> list event -> Prop) : Prop :=
  match m tr with
  | (Ok a, tr') => Q a tr'
  | (Raise e, tr') => E e tr'
  end.

(** The stage entered a fourth time, on a state of a run that has revised
    three times. *)
Definition capped_state : GlobalState :=
  <["revision_count" := PInt 3]>
    (<["validation_status" := PStatus NEEDS_REVISION]>
       (<["final_report" := PStr "report"]> (create_init_state "topic" 0))).

(** The metrics returned when the evaluation fails. *)
Definition is_fallback (report : string) (m : QualityMetrics) : Prop :=
  word_count_accuracy m = false
  /\ overall_score m = FNum 0
  /\ actual_word_count m = str_len report
  /\ feedback m = PStr "评估系统出现错误，无法完成评估。".

(** The evaluation completes: the model answers, the answer is read as a
    dictionary [result], its score converts to [score] and its issues have
    a length. *)
Definition completes (env : Env) (report : string) (word_limit : pyval)
    (tr : list event) (result : list (string * pyval)) (score : pyfloat)
  : Prop :=
  exists response n,
    llm env
      (tr ++ [EvProgress "quality.evaluation" "start";
              EvProgress "quality.evaluation" "llm_call"])%list
      "quality.evaluation"
      (PromptEvaluation report
         (if truthy word_limit then word_limit else PStr "无限制"))
    = Ok response
    /\ _parse_evaluation_response env response = PDict result
    /\ to_float env (default (PFloat (FNum 5)) (dict_get result "overall_score"))
       = Ok score
    /\ py_len (default (PList []) (dict_get result "major_issues")) = Ok n.

(** An environment whose model answers every prompt and whose reader makes
    a dictionary with a score of 8.5 of every answer. *)
Definition graded_env : Env :=
  scripted_env (fun _ => Ok "{}")
    (fun _ => Ok (PDict [("overall_score", PFloat (FNum (85 # 10)))]))
    (fun n => seq 0 n) (FNum 0).

(** The model proposes ["candidate"] as the revision and ["adjusted"] as
    the adjustment; asked to evaluate a report it answers with the report,
    which the reader grades: 5.0 for the original, 7.0 for the candidate,
    7.5 for the adjusted text. *)
Definition sizing_env : Env :=
  scripted_env
    (fun p =>
       match p with
       | PromptEvaluation report _ => Ok report
       | PromptSmartRevision _ _ _ _ => Ok "candidate"
       | PromptRevisionAdjust _ _ => Ok "adjusted"
       | _ => Raise "unexpected prompt"
       end)
    (fun answer =>
       if String.eqb answer "original" then
         Ok (PDict [("overall_score", PFloat (FNum (50 # 10)))])
       else if String.eqb answer "candidate" then
         Ok (PDict [("overall_score", PFloat (FNum (70 # 10)))])
       else
         Ok (PDict [("overall_score", PFloat (FNum (75 # 10)))]))
    (fun n => seq 0 n) (FNum 0).

(** A state after a validation that asked for a revision, with a target
    size of 1000. *)
Definition needs_revision_state : GlobalState :=
  <["word_limit" := PInt 1000]>
    (<["quality_metrics" :=
         PDict [("overall_score", PFloat (FNum (50 # 10)))]]>
       (<["validation_status" := PStatus NEEDS_REVISION]>
          (<["final_report" := PStr "original"]>
             (create_init_state "topic" 0)))).

(** The calls of the model in a trace. *)
Definition llm_calls (tr : list event) : list (string * prompt) :=
  omap (fun e => match e with EvLLM agent p => Some (agent, p) | _ => None end)
    tr.

Definition is_adjust_call (call : string * prompt) : bool :=
  match snd call with PromptRevisionAdjust _ _ => true | _ => false end.

Definition is_evaluation_call (call : string * prompt) : bool :=
  match snd call with PromptEvaluation _ _ => true | _ => false end.

(** The state a run returned, and the empty state when it raised. *)
Definition returned (run : result GlobalState * list event) : GlobalState :=
  match fst run with
  | Ok state' => state'
  | Raise _ => ∅
  end.

Definition revision_run : result GlobalState * list event :=
  revision_node (H := Reference.lib) sizing_env needs_revision_state [].




(** A run started at time 7 and last updated at time 9, before and after
    the understanding stage. *)
Definition fresh_state : GlobalState :=
  <["last_updated" := PDatetime 9]> (create_init_state "topic" 7).

Definition understood_state : GlobalState :=
  <["requirements" :=
      PQuery {| domain := GENERAL; analysis_intent := OVERVIEW |}]>
    fresh_state.

(** What the stage leaves in [processed_sections]: the titles of the
    outline in some order, or what it found there. *)
Definition fanned_out (state : GlobalState) (outline : ReportStructure)
    (state' : GlobalState) : Prop :=
  (exists titles,
      state' !! "processed_sections" = Some (PList (map PStr titles))
      /\ Permutation titles (map title (sections outline)))
  \/ state' !! "processed_sections" = state !! "processed_sections".

(** An outline of two sections, in the state the planning stage leaves. *)
Definition two_sections : ReportStructure :=
  {| template_type := "overview";
     sections :=
       [ {| title := "Background"; key_questions := ["why"]; content := "";
            sources := []; status := Outlined |};
         {| title := "Outlook"; key_questions := ["what next"]; content := "";
            sources := []; status := Outlined |} ];
     executive_summary_required := true;
     recommendations_required := true;
     target_length := 1091;
     length_tolerance := 0 |}.

Definition planned_state : GlobalState :=
  <["structure" := PStructure two_sections]> understood_state.

(** The model answers every prompt and the futures complete in the
    reverse of the order of their submission. *)
Definition reversed_env : Env :=
  scripted_env (fun _ => Ok "section text") (fun _ => Raise "JSONDecodeError")
    (fun n => rev (seq 0 n)) (FNum 0).

(** The path a step of a write acts on. *)
Definition step_path `{PyLib} (step : fs_step) : string :=
  match step with
  | FsOpenWrite path => path
  | FsWrite path _ => path
  end.

(** The file system after a first snapshot, taken at time 20 of a run
    started at time 7, and the same after a second snapshot, taken at time
    30, was interrupted after [n] steps. *)
Definition first_snapshot : gmap string (list Reference.token) :=
  save_checkpoint (H := Reference.lib) (create_init_state "topic" 7) 20
    "checkpoint.json" ∅.

Definition interrupted (n : nat) : gmap string (list Reference.token) :=
  fs_run
    (take n
       (save_checkpoint_steps (H := Reference.lib)
          (<["revision_count" := PInt 1]> (create_init_state "topic" 7)) 30
          "checkpoint.json"))
    first_snapshot.

(** A value [json.dump] writes and [json.load] reads back as it was: none,
    a boolean, a number, a string, and lists and dictionaries of these. *)
Fixpoint plain (v : pyval) : bool :=
  match v with
  | PNone | PBool _ | PInt _ | PFloat _ | PStr _ => true
  | PList l => forallb plain l
  | PDict d =>
      bool_decide (NoDup (map fst d))
      && forallb (fun kv => plain (snd kv)) d
  | PDatetime _ | PStatus _ | PAgent _ | PQuery _ | PStructure _ => false
  end.

(** A field the snapshot format covers: a timestamp under [start_time] or
    [last_updated], a status under [validation_status], an agent under
    [current_agent], the two models under [requirements] and [structure],
    and a plain value anywhere the reader leaves values as they are. *)
Definition restorable (key : string) (v : pyval) : bool :=
  match v with
  | PDatetime _ => String.eqb key "start_time" || String.eqb key "last_updated"
  | PStatus _ => String.eqb key "validation_status"
  | PAgent _ => String.eqb key "current_agent"
  | PQuery _ => String.eqb key "requirements"
  | PStructure _ => String.eqb key "structure"
  | PStr _ =>
      negb (String.eqb key "start_time" || String.eqb key "last_updated")
      && negb (String.eqb key "validation_status")
      && negb (String.eqb key "current_agent")
  | PDict _ =>
      plain v
      && negb (String.eqb key "requirements")
      && negb (String.eqb key "structure")
  | PNone | PBool _ | PInt _ | PFloat _ | PList _ => plain v
  end.

Definition checkpointable (state : GlobalState) : bool :=
  forallb (fun kv => restorable (fst kv) (snd kv)) (map_to_list state).

(** The state without the keys that hold [None]. *)
Definition without_none (state : GlobalState) : GlobalState :=
  filter (fun kv => is_none (snd kv) = false) state.

(** The model answers and the answer reads as a dictionary; the keyword
    classifier is not confident, so the understanding stage asks the
    model. *)
Definition answering_env : Env :=
  scripted_env (fun _ => Ok "analysis")
    (fun _ =>
       Ok (PDict [("domain", PStr "通用"); ("analysis_intent", PStr "overview")]))
    (fun n => seq 0 n) (FNum 0).

Definition asked_run : result GlobalState * list event :=
  problem_understanding_node answering_env (create_init_state "topic" 7) [].

(** What loading gives after the state has been saved at time 20; the
    empty state when loading raises. *)
Definition reloaded (state : GlobalState) : GlobalState :=
  match
    load_checkpoint (H := Reference.lib) "checkpoint.json"
      (save_checkpoint state 20 "checkpoint.json" ∅)
  with
  | Ok state' => state'
  | Raise _ => ∅
  end.

(** The evaluation without a word limit raises [e] before its metrics are
    built: the call of the model raises, or the answer is not read as a
    dictionary, or its score does not convert to a number, or its issues
    have no length. *)
Definition raises_without_limit (env : Env) (report : string)
    (tr : list event) (e : string) : Prop :=
  let asked :=
    llm env
      (tr ++ [EvProgress "quality.evaluation" "start";
              EvProgress "quality.evaluation" "llm_call"])%list
      "quality.evaluation" (PromptEvaluation report (PStr "无限制")) in
  asked = Raise e
  \/ exists response,
       asked = Ok response
       /\ (get_method (_parse_evaluation_response env response)
             "overall_score" (PFloat (FNum 5)) = Raise e
           \/ exists result,
                _parse_evaluation_response env response = PDict result
                /\ (to_float env
                      (default (PFloat (FNum 5))
                         (dict_get result "overall_score")) = Raise e
                    \/ (is_ok (to_float env
                                 (default (PFloat (FNum 5))
                                    (dict_get result "overall_score"))) = true
                        /\ py_len (default (PList [])
                                     (dict_get result "major_issues"))
                           = Raise e))).

(** The trace at which the search is asked, and the trace at which the
    pool is started: after the search and its two progress events. *)
Definition search_trace (tr : list event) : list event :=
  (tr ++ [EvProgress "agent.knowledge_retrieval" "external_search_start"])%list.

Definition fan_out_trace (tr : list event) (query : pyval) : list event :=
  ((search_trace tr ++ [EvSearch query])
   ++ [EvProgress "agent.knowledge_retrieval" "external_search_done"])%list.

(** The futures of the pool on an outline none of whose sections is
    processed, in the order in which they complete: each holds the content
    of its section or the exception its worker raised. *)
Definition section_futures (env : Env) (state : GlobalState)
    (outline : ReportStructure) (docs : list string) (tr : list event)
  : list (string * result string) :=
  fst (run_workers env docs (in_completion_order env tr (sections outline))
         (state, tr)).

(** The stage failed and left [processed_sections] as it was. *)
Definition fan_out_failed (state state' : GlobalState) : Prop :=
  state' !! "validation_status" = Some (PStatus FAILED)
  /\ state' !! "processed_sections" = state !! "processed_sections".




(* ==== theorems ==== *)

(** * Properties *)

(** ** Reading the state *)

Lemma get_or_lookup (state : GlobalState) key dflt v :
  state !! key = Some v -> get_or state key dflt = v.
Proof. unfold get_or. by intros ->. Qed.

Lemma get_lookup (state : GlobalState) key v :
  state !! key = Some v -> get state key = v.
Proof. unfold get. by intros ->. Qed.

Lemma eq_status_member (x y : ValidationStatus) :
  eq_status (PStatus x) y = bool_decide (x = y).
Proof. by destruct x, y. Qed.

(** ** The conditional edge *)

(** C4.  After the validate stage the state holds a member of
    [ValidationStatus] and an integer counter.  The edge then routes a
    validated state to the final stage, a state that needs revision and has
    a counter below 3 to the revise stage, and every other state (failed,
    pending, in progress, or at the ceiling) to the final stage. *)
Theorem should_revision_routes (state : GlobalState)
    (st : ValidationStatus) (n : Z) :
  state !! "validation_status" = Some (PStatus st) ->
  get_or state "revision_count" (PInt 0) = PInt n ->
  (st = VALIDATED -> should_revision state = Ok Route_generate_report)
  /\ (st = NEEDS_REVISION -> n < 3 -> should_revision state = Ok Route_revision)
  /\ (st <> VALIDATED -> ~ (st = NEEDS_REVISION /\ n < 3) ->
      should_revision state = Ok Route_generate_report).
Proof.
  intros Hst Hn. unfold should_revision, getitem. rewrite Hst, Hn.
  rewrite !eq_status_member. cbn [lt_int].
  repeat split.
  - intros ->. reflexivity.
  - intros -> Hlt. cbn. by rewrite (proj2 (Z.ltb_lt n 3) Hlt).
  - intros Hv Hr. rewrite bool_decide_false by done.
    case_bool_decide as Hs; [|reflexivity].
    destruct (Z.ltb_spec n 3); [|reflexivity].
    exfalso. apply Hr. by split.
Qed.

(** A state that needs revision after one round is routed to the revise
    stage. *)
Lemma should_revision_routes_witness :
  let state : GlobalState :=
    <["validation_status" := PStatus NEEDS_REVISION]>
      (<["revision_count" := PInt 1]> ∅) in
  state !! "validation_status" = Some (PStatus NEEDS_REVISION)
  /\ get_or state "revision_count" (PInt 0) = PInt 1
  /\ should_revision state = Ok Route_revision.
Proof.
  split; [reflexivity|]. split; [reflexivity|].
  apply (should_revision_routes _ NEEDS_REVISION 1); [reflexivity..|lia].
Defined.

(** ** The pass rule of the quality gate *)

Lemma float_ge_leq a b : float_ge a b = true <-> float_leq b a.
Proof.
  destruct a as [x| | |], b as [y| | |]; simpl; try done.
  apply Qle_bool_iff.
Qed.

Lemma float_leq_trans a b c : float_leq a b -> float_leq b c -> float_leq a c.
Proof.
  destruct a as [x| | |], b as [y| | |], c as [z| | |]; simpl; try done.
  apply Qle_trans.
Qed.

(** The rule on metrics whose issues are a list, as one boolean. *)
Lemma should_report_pass_list m issues :
  major_issues m = PList issues ->
  should_report_pass_quality_check m
  = Ok (float_ge (overall_score m) (FNum (83 # 10))
        || float_ge (overall_score m) (FNum (80 # 10))
           && bool_decide (issues = [])).
Proof.
  intros Hissues.
  unfold should_report_pass_quality_check, is_high_quality,
    is_acceptable_quality.
  rewrite Hissues. cbn [py_len].
  destruct (float_ge (overall_score m) (FNum (83 # 10))); [reflexivity|].
  destruct (float_ge (overall_score m) (FNum (80 # 10))); [|reflexivity].
  destruct issues; reflexivity.
Qed.

(** C5.  On metrics whose [major_issues] is a list, the gate passes exactly
    when the score is at least 8.3, or at least 8.0 with no major issue.  A
    score of 9.0 with no issue passes, a score of 8.1 with an issue fails,
    and with no issue a higher score never turns a pass into a fail. *)
Theorem quality_gate_rule :
  (forall m issues,
      major_issues m = PList issues ->
      (should_report_pass_quality_check m = Ok true
       <-> float_leq (FNum (83 # 10)) (overall_score m)
           \/ (float_leq (FNum (80 # 10)) (overall_score m) /\ issues = []))
      /\ (should_report_pass_quality_check m = Ok false
          <-> ~ (float_leq (FNum (83 # 10)) (overall_score m)
                 \/ (float_leq (FNum (80 # 10)) (overall_score m)
                     /\ issues = []))))
  /\ (forall m,
         overall_score m = FNum (90 # 10) -> major_issues m = PList [] ->
         should_report_pass_quality_check m = Ok true)
  /\ (forall m issue issues,
         overall_score m = FNum (81 # 10) ->
         major_issues m = PList (issue :: issues) ->
         should_report_pass_quality_check m = Ok false)
  /\ (forall m1 m2,
         major_issues m1 = PList [] -> major_issues m2 = PList [] ->
         float_leq (overall_score m1) (overall_score m2) ->
         should_report_pass_quality_check m1 = Ok true ->
         should_report_pass_quality_check m2 = Ok true).
Proof.
  assert (Hrule : forall m issues,
             major_issues m = PList issues ->
             should_report_pass_quality_check m = Ok true
             <-> float_leq (FNum (83 # 10)) (overall_score m)
                 \/ (float_leq (FNum (80 # 10)) (overall_score m)
                     /\ issues = [])).
  { intros m issues Hissues. rewrite (should_report_pass_list m issues Hissues).
    rewrite <- !float_ge_leq.
    destruct (float_ge (overall_score m) (FNum (83 # 10))),
      (float_ge (overall_score m) (FNum (80 # 10))); simpl;
      try case_bool_decide; intuition congruence. }
  split; [|split; [|split]].
  - intros m issues Hissues. split; [by apply Hrule|].
    rewrite <- (Hrule m issues Hissues).
    rewrite (should_report_pass_list m issues Hissues).
    destruct (_ || _); intuition congruence.
  - intros m Hscore Hissues. rewrite (should_report_pass_list m [] Hissues).
    rewrite Hscore. reflexivity.
  - intros m issue issues Hscore Hissues.
    rewrite (should_report_pass_list m _ Hissues). rewrite Hscore.
    reflexivity.
  - intros m1 m2 H1 H2 Hle Hpass.
    apply (Hrule m2 [] H2). apply (Hrule m1 [] H1) in Hpass.
    destruct Hpass as [Hhigh | [Hok _]]; [left | right; split; [|done]];
      eapply float_leq_trans; eauto.
Qed.

Lemma quality_gate_rule_witness :
  should_report_pass_quality_check (metrics_with (90 # 10) []) = Ok true
  /\ should_report_pass_quality_check (metrics_with (81 # 10) [PStr "x"])
     = Ok false
  /\ should_report_pass_quality_check (metrics_with (82 # 10) []) = Ok true.
Proof.
  destruct quality_gate_rule as (_ & Hpass & Hfail & Hmono).
  split; [|split].
  - apply Hpass; reflexivity.
  - apply (Hfail _ (PStr "x") []); reflexivity.
  - apply (Hmono (metrics_with (80 # 10) []) (metrics_with (82 # 10) []));
      [reflexivity | reflexivity | simpl; unfold Qle; simpl; lia | reflexivity].
Defined.

(** ** Reasoning about computations *)

Lemma wp_ret {A} (a : A) tr Q E : Q a tr -> wp (mret a) tr Q E.
Proof. done. Qed.

Lemma wp_bind {A B} (m : M A) (f : A -> M B) tr Q E :
  wp m tr (fun a tr' => wp (f a) tr' Q E) E -> wp (m ≫= f) tr Q E.
Proof.
  unfold wp, mbind, M_bind. destruct (m tr) as [[a|e] tr']; done.
Qed.

Lemma wp_fmap {A B} (f : A -> B) (m : M A) tr Q E :
  wp m tr (fun a tr' => Q (f a) tr') E -> wp (f <$> m) tr Q E.
Proof.
  unfold wp, fmap, M_fmap. destruct (m tr) as [[a|e] tr']; done.
Qed.

Lemma wp_lift {A} (r : result A) tr (Q : A -> list event -> Prop) E :
  match r with Ok a => Q a tr | Raise e => E e tr end -> wp (lift r) tr Q E.
Proof. unfold wp, lift. destruct r; done. Qed.

Lemma wp_raise {A} msg tr (Q : A -> list event -> Prop) E :
  E msg tr -> wp (raise msg) tr Q E.
Proof. done. Qed.

Lemma wp_try_except {A} (body : M A) handler tr Q E :
  wp body tr Q (fun e tr' => wp (handler e) tr' Q E) ->
  wp (try_except body handler) tr Q E.
Proof.
  unfold wp, try_except. destruct (body tr) as [[a|e] tr']; done.
Qed.

Lemma wp_progress operation phase tr Q E :
  Q tt (tr ++ [EvProgress operation phase])%list ->
  wp (progress operation phase) tr Q E.
Proof. done. Qed.

Lemma wp_datetime_now env tr Q E :
  Q (now env tr) (tr ++ [EvNow])%list -> wp (datetime_now env) tr Q E.
Proof. done. Qed.

Lemma wp_call_llm env agent p tr (Q : string -> list event -> Prop) E :
  match llm env tr agent p with
  | Ok answer => Q answer (tr ++ [EvLLM agent p])%list
  | Raise e => E e (tr ++ [EvLLM agent p])%list
  end ->
  wp (call_llm env agent p) tr Q E.
Proof. unfold wp, call_llm. destruct (llm env tr agent p); done. Qed.


(** A computation that cannot raise and whose outcome is determined. *)
Lemma wp_returns {A} (m : M A) tr a tr' :
  wp m tr (fun x t => x = a /\ t = tr') (fun _ _ => False) ->
  m tr = (Ok a, tr').
Proof.
  unfold wp. destruct (m tr) as [[x|e] t]; [|done]. by intros [-> ->].
Qed.

Lemma wp_run {A} (m : M A) tr Q E :
  wp m tr Q E ->
  match m tr with
  | (Ok a, tr') => Q a tr'
  | (Raise e, tr') => E e tr'
  end.
Proof. done. Qed.

Ltac wp_step :=
  lazymatch goal with
  | |- wp (try_except _ _) _ _ _ => apply wp_try_except
  | |- wp (mbind _ _) _ _ _ => apply wp_bind
  | |- wp (fmap _ _) _ _ _ => apply wp_fmap
  | |- wp (progress _ _) _ _ _ => apply wp_progress
  | |- wp (datetime_now _) _ _ _ => apply wp_datetime_now
  | |- wp (mret _) _ _ _ => apply wp_ret
  | |- wp (raise _) _ _ _ => apply wp_raise
  | |- wp (lift _) _ _ _ => apply wp_lift
  | |- wp (call_llm _ _ _) _ _ _ => apply wp_call_llm
  end.

(** ** The revise stage at the ceiling *)

Lemma ge_int_ceiling n : 3 <= n -> ge_int (PInt n) 3 = Ok true.
Proof. intros Hn. cbn. by rewrite (proj2 (Z.leb_le 3 n) Hn). Qed.

(** C1.  Entered with a counter at the ceiling (3, or above it) and a list
    of warnings, the revise stage calls neither the model nor the evaluator:
    it emits the start and skip events and returns the state with the
    status forced to validated, one warning appended and the stage name
    set; the counter, the report and every other key are as they were. *)
Theorem revision_at_ceiling `{PyLib} (env : Env) (state : GlobalState)
    (n : Z) (warnings : list pyval) (tr : list event) :
  state !! "revision_count" = Some (PInt n) ->
  3 <= n ->
  get_or state "warnings" (PList []) = PList warnings ->
  exists state',
    revision_node env state tr
    = (Ok state',
       (tr ++ [EvProgress "agent.revision" "start"]
           ++ [EvProgress "agent.revision" "skip"])%list)
    /\ state' !! "validation_status" = Some (PStatus VALIDATED)
    /\ state' !! "revision_count" = Some (PInt n)
    /\ state' !! "final_report" = state !! "final_report"
    /\ state' !! "warnings"
       = Some (PList (warnings ++ [PStr "已达到最大修订次数 3，停止修订"])%list)
    /\ state' !! "current_agent" = Some (PAgent REVISION)
    /\ forall key,
         key <> "validation_status" -> key <> "warnings" ->
         key <> "current_agent" -> state' !! key = state !! key.
Proof.
  intros Hcount Hn Hwarnings.
  eexists. split.
  - apply wp_returns. unfold revision_node.
    rewrite (get_or_lookup _ _ _ _ Hcount), Hwarnings.
    repeat wp_step. rewrite (ge_int_ceiling n Hn).
    repeat wp_step. cbn [list_plus]. repeat wp_step.
    rewrite <- app_assoc. split; reflexivity.
  - rewrite lookup_insert_eq.
    rewrite !lookup_insert_ne by done. rewrite lookup_insert_eq.
    rewrite !lookup_insert_ne by done. rewrite lookup_insert_eq.
    repeat split; try done.
    intros key H1 H2 H3. by rewrite !lookup_insert_ne.
Qed.

Lemma revision_at_ceiling_witness :
  capped_state !! "revision_count" = Some (PInt 3)
  /\ 3 <= 3
  /\ get_or capped_state "warnings" (PList []) = PList []
  /\ exists state',
       revision_node offline_env capped_state []
       = (Ok state',
          [EvProgress "agent.revision" "start";
           EvProgress "agent.revision" "skip"])
       /\ state' !! "validation_status" = Some (PStatus VALIDATED)
       /\ state' !! "revision_count" = Some (PInt 3)
       /\ state' !! "final_report" = Some (PStr "report").
Proof.
  split; [reflexivity|]. split; [lia|]. split; [reflexivity|].
  destruct (revision_at_ceiling offline_env capped_state 3 [] [])
    as (state' & Hrun & Hstatus & Hcount & Hreport & _);
    [reflexivity | lia | reflexivity |].
  exists state'. repeat split; [exact Hrun | exact Hstatus | exact Hcount |].
  rewrite Hreport. reflexivity.
Defined.

(** ** Evaluation without a word limit *)

Ltac wp_case :=
  lazymatch goal with
  | |- match ?r with Ok _ => _ | Raise _ => _ end =>
      let E := fresh "E" in destruct r eqn:E
  end.

Ltac wp_auto := repeat (wp_step || wp_case).

(** A computation that cannot raise returns. *)
Lemma wp_total {A} (m : M A) tr (Q : A -> list event -> Prop) :
  wp m tr Q (fun _ _ => False) ->
  exists a tr', m tr = (Ok a, tr') /\ Q a tr'.
Proof.
  unfold wp. destruct (m tr) as [[a|e] tr']; [|done]. by exists a, tr'.
Qed.

(** The evaluation never raises: it returns the metrics it computed, or
    the fallback metrics. *)
Lemma evaluate_report_async_total env report word_limit method tr :
  exists m tr',
    evaluate_report_async env report word_limit method tr = (Ok m, tr')
    /\ (is_fallback report m \/ actual_word_count m = count_words report).
Proof.
  apply wp_total. unfold evaluate_report_async.
  destruct (is_none word_limit); wp_auto;
    solve [ left; repeat split; reflexivity | right; reflexivity ].
Qed.

Lemma evaluate_report_async_completes env report word_limit method tr
    result score accuracy :
  completes env report word_limit tr result score ->
  (if is_none word_limit then Ok true
   else
     match scaled_limit word_limit 95, scaled_limit word_limit 105 with
     | Ok lower, Ok upper =>
         Ok ((lower <=? count_words report) && (count_words report <=? upper))
     | Raise e, _ | _, Raise e => Raise e
     end) = Ok accuracy ->
  exists m tr',
    evaluate_report_async env report word_limit method tr = (Ok m, tr')
    /\ word_count_accuracy m = accuracy
    /\ overall_score m = score
    /\ actual_word_count m = count_words report
    /\ major_issues m = default (PList []) (dict_get result "major_issues").
Proof.
  intros (response & n & Hllm & Hparse & Hscore & Hlen) Haccuracy.
  apply wp_total. unfold evaluate_report_async.
  repeat wp_step. rewrite <- (app_assoc tr). cbn [app]. rewrite Hllm.
  repeat wp_step. rewrite Hparse. cbn [get_method].
  destruct (is_none word_limit).
  - injection Haccuracy as <-. repeat wp_step. rewrite Hscore.
    repeat wp_step. rewrite Hlen. repeat wp_step. repeat split; reflexivity.
  - repeat wp_step.
    destruct (scaled_limit word_limit 95) as [lower|]; [|done].
    repeat wp_step.
    destruct (scaled_limit word_limit 105) as [upper|]; [|done].
    injection Haccuracy as <-. repeat wp_step. rewrite Hscore.
    repeat wp_step. rewrite Hlen. repeat wp_step. repeat split; reflexivity.
Qed.

Lemma evaluate_report_async_raises env report method tr e :
  raises_without_limit env report tr e ->
  exists m tr',
    evaluate_report_async env report PNone method tr = (Ok m, tr')
    /\ is_fallback report m
    /\ major_issues m = PList [PStr ("评估过程出错: " ++ e)].
Proof.
  intros Hraises. apply wp_total. unfold evaluate_report_async.
  cbn [is_none truthy]. repeat wp_step. rewrite <- (app_assoc tr). cbn [app].
  destruct Hraises as [Hllm|(response & Hllm & Hrest)]; rewrite Hllm.
  - repeat wp_step. repeat split; reflexivity.
  - repeat wp_step.
    destruct Hrest as [Hresult|(result & Hparse & Hrest)].
    + rewrite Hresult. repeat wp_step. repeat split; reflexivity.
    + rewrite Hparse. cbn [get_method]. repeat wp_step.
      destruct Hrest as [Hscore|[Hscore Hlen]].
      * rewrite Hscore. repeat wp_step. repeat split; reflexivity.
      * destruct (to_float env _) as [score|]; [|discriminate].
        repeat wp_step. rewrite Hlen. repeat wp_step.
        repeat split; reflexivity.
Qed.

Lemma evaluate_report_async_cases env report tr :
  (exists result score, completes env report PNone tr result score)
  \/ exists e, raises_without_limit env report tr e.
Proof.
  unfold completes, raises_without_limit. cbn [truthy].
  destruct (llm env _ "quality.evaluation" _) as [response|e];
    [|right; exists e; by left].
  destruct (_parse_evaluation_response env response) as [| | | | | |result| | | | |] eqn:Hparse.
  all: try (right; eexists; right; exists response; split; [reflexivity|];
            left; rewrite Hparse; reflexivity).
  destruct (to_float env (default (PFloat (FNum 5))
                            (dict_get result "overall_score")))
    as [score|e] eqn:Hscore.
  - destruct (py_len (default (PList []) (dict_get result "major_issues")))
      as [n|e] eqn:Hlen.
    + left. exists result, score, response, n. by rewrite Hparse.
    + right. exists e. right. exists response. split; [reflexivity|].
      right. exists result. rewrite Hparse, Hscore, Hlen. split; [reflexivity|].
      right. by split.
  - right. exists e. right. exists response. split; [reflexivity|].
    right. exists result. rewrite Hparse, Hscore. split; [reflexivity|].
    by left.
Qed.

(** C10, as the code has it.  With no word limit the evaluation always
    returns metrics, in one of two ways.  When it completes (the model
    answers, the answer is read as a dictionary, its score converts to a
    number and its issues have a length) the size flag of the metrics is
    true whatever the measured size of the report.  When anything in it
    raises (the call of the model, an answer that is not read as a
    dictionary, a score that does not convert, issues without a length)
    the fallback metrics are returned: their size flag is false, their
    score is 0, their size is the length of the report and their one issue
    carries the message of the exception.  The tolerance of 5% is computed
    only for a limit that is given. *)
Theorem evaluate_without_limit env report method tr :
  (exists m tr',
      evaluate_report_async env report PNone method tr = (Ok m, tr')
      /\ ((exists result score,
              completes env report PNone tr result score
              /\ word_count_accuracy m = true
              /\ overall_score m = score
              /\ actual_word_count m = count_words report)
          \/ (exists e,
                 raises_without_limit env report tr e
                 /\ is_fallback report m
                 /\ major_issues m = PList [PStr ("评估过程出错: " ++ e)])))
  /\ (forall result score,
         completes env report PNone tr result score ->
         exists m tr',
           evaluate_report_async env report PNone method tr = (Ok m, tr')
           /\ word_count_accuracy m = true
           /\ overall_score m = score
           /\ actual_word_count m = count_words report)
  /\ (forall e,
         raises_without_limit env report tr e ->
         exists m tr',
           evaluate_report_async env report PNone method tr = (Ok m, tr')
           /\ word_count_accuracy m = false
           /\ overall_score m = FNum 0
           /\ actual_word_count m = str_len report
           /\ major_issues m = PList [PStr ("评估过程出错: " ++ e)])
  /\ (forall limit result score,
         completes env report (PInt limit) tr result score ->
         exists m tr',
           evaluate_report_async env report (PInt limit) method tr
           = (Ok m, tr')
           /\ word_count_accuracy m
              = (Z.quot (limit * 95) 100 <=? count_words report)
                && (count_words report <=? Z.quot (limit * 105) 100)).
Proof.
  split; [|split; [|split]].
  - destruct (evaluate_report_async_cases env report tr)
      as [(result & score & Hcompletes)|[e Hraises]].
    + destruct (evaluate_report_async_completes env report PNone method tr
                  result score true Hcompletes eq_refl)
        as (m & tr' & Hrun & Hacc & Hscore & Hcount & _).
      exists m, tr'. split; [exact Hrun|]. left. by exists result, score.
    + destruct (evaluate_report_async_raises env report method tr e Hraises)
        as (m & tr' & Hrun & Hfallback & Hissues).
      exists m, tr'. split; [exact Hrun|]. right. by exists e.
  - intros result score Hcompletes.
    destruct (evaluate_report_async_completes env report PNone method tr
                result score true Hcompletes eq_refl)
      as (m & tr' & Hrun & Hacc & Hscore & Hcount & _).
    by exists m, tr'.
  - intros e Hraises.
    destruct (evaluate_report_async_raises env report method tr e Hraises)
      as (m & tr' & Hrun & (Hacc & Hscore & Hcount & _) & Hissues).
    by exists m, tr'.
  - intros limit result score Hcompletes.
    destruct (evaluate_report_async_completes env report (PInt limit) method
                tr result score _ Hcompletes eq_refl)
      as (m & tr' & Hrun & Hacc & _).
    by exists m, tr'.
Qed.

Lemma evaluate_without_limit_witness :
  completes graded_env "report text" PNone []
    [("overall_score", PFloat (FNum (85 # 10)))] (FNum (85 # 10))
  /\ (exists m tr',
         evaluate_report_async graded_env "report text" PNone "validation" []
         = (Ok m, tr')
         /\ word_count_accuracy m = true
         /\ overall_score m = FNum (85 # 10)
         /\ actual_word_count m = count_words "report text")
  /\ raises_without_limit offline_env "report text" [] "LLM调用超时"
  /\ exists m tr',
       evaluate_report_async offline_env "report text" PNone "validation" []
       = (Ok m, tr')
       /\ word_count_accuracy m = false
       /\ overall_score m = FNum 0
       /\ actual_word_count m = str_len "report text"
       /\ major_issues m = PList [PStr "评估过程出错: LLM调用超时"].
Proof.
  assert (Hcompletes :
            completes graded_env "report text" PNone []
              [("overall_score", PFloat (FNum (85 # 10)))] (FNum (85 # 10)))
    by (exists "{}", 0; repeat split; reflexivity).
  assert (Hraises :
            raises_without_limit offline_env "report text" [] "LLM调用超时")
    by (left; reflexivity).
  split; [exact Hcompletes|].
  split; [exact (proj1 (proj2 (evaluate_without_limit graded_env
                                 "report text" "validation" []))
                   _ _ Hcompletes)|].
  split; [exact Hraises|].
  exact (proj1 (proj2 (proj2 (evaluate_without_limit offline_env
                                "report text" "validation" [])))
           _ Hraises).
Defined.

(** C10 as stated fails: with no word limit and a model that cannot be
    reached, the metrics returned for a report have a false size flag. *)
Lemma evaluate_without_limit_counterexample :
  exists m tr',
    evaluate_report_async offline_env "report text" PNone "validation" []
    = (Ok m, tr')
    /\ word_count_accuracy m = false.
Proof. eexists _, _. split; reflexivity. Qed.

(** ** The size correction of the revise stage *)

Lemma run_returned (run : result GlobalState * list event) :
  is_ok (fst run) = true -> run = (Ok (returned run), snd run).
Proof. destruct run as [[state'|e] tr']; [reflexivity|discriminate]. Qed.

(** C6 on the code.  The candidate has one word against a target of 1000,
    so the correction runs: the model is asked once to adjust the candidate
    and answers ["adjusted"], and the adjusted text goes through a full
    evaluation, with a call of the model.  The state returned still holds
    the candidate as [final_report], and the metrics stored are those of the
    candidate: the adjusted text and its evaluation are dropped. *)
Theorem revision_size_correction_dropped :
  revision_run = (Ok (returned revision_run), snd revision_run)
  /\ returned revision_run !! "final_report" = Some (PStr "candidate")
  /\ filter (fun c => is_adjust_call c = true) (llm_calls (snd revision_run))
     = [("agent.revision", PromptRevisionAdjust 1000 "candidate")]
  /\ rm_only_think sizing_env "adjusted" = "adjusted"
  /\ map snd (filter (fun c => is_evaluation_call c = true)
                (llm_calls (snd revision_run)))
     = [PromptEvaluation "original" (PInt 1000);
        PromptEvaluation "candidate" (PInt 1000);
        PromptEvaluation "adjusted" (PInt 1000)]
  /\ returned revision_run !! "revision_count" = Some (PInt 1)
  /\ returned revision_run !! "validation_status"
     = Some (PStatus NEEDS_REVISION)
  /\ (exists metrics,
         returned revision_run !! "quality_metrics" = Some (PDict metrics)
         /\ dict_get metrics "overall_score" = Some (PFloat (FNum (70 # 10)))
         /\ dict_get metrics "actual_word_count" = Some (PInt 1)
         /\ dict_get metrics "word_count_accuracy" = Some (PBool false)).
Proof.
  split; [apply run_returned; vm_compute; reflexivity|].
  repeat split; try (vm_compute; reflexivity).
  eexists. split; [vm_compute; reflexivity|].
  repeat split; vm_compute; reflexivity.
Qed.

(** ** Timestamps across the stages *)

Ltac solve_prefix :=
  repeat
    match goal with
    | |- ?x `prefix_of` ?x => reflexivity
    | H : ?x `prefix_of` ?y |- ?x `prefix_of` ?y => exact H
    | |- _ `prefix_of` (_ ++ _)%list => apply prefix_app_r
    | H : ?y `prefix_of` ?z |- _ `prefix_of` ?z =>
        apply (transitivity (y := y)); [|exact H]
    end.

Ltac wp_branch :=
  lazymatch goal with
  | |- wp (if ?b then _ else _) _ _ _ => destruct b eqn:?
  | |- wp (match ?x with _ => _ end) _ _ _ => destruct x eqn:?
  end.

Ltac wp_walk := repeat (wp_step || wp_case || wp_branch).

Ltac simpl_lookups :=
  repeat (rewrite lookup_insert_eq || rewrite lookup_insert_ne by done).














(** The workers of the fan-out write two keys of the shared state, and the
    loop over the completed futures writes the draft. *)
Lemma generate_final_content_trace env sec state docs tr :
  tr `prefix_of` snd (generate_final_content env sec state docs tr).
Proof.
  pose proof (wp_run (generate_final_content env sec state docs) tr
                (fun _ tr' => tr `prefix_of` tr')
                (fun _ tr' => tr `prefix_of` tr')) as Hrun.
  destruct (generate_final_content env sec state docs tr) as [[a|e] tr'];
    apply Hrun; unfold generate_final_content; wp_auto; solve_prefix.
Qed.

Lemma run_workers_shared env docs tasks state tr :
  tr `prefix_of` snd (snd (run_workers env docs tasks (state, tr)))
  /\ forall key,
       key <> "active_section" -> key <> "last_updated" ->
       fst (snd (run_workers env docs tasks (state, tr))) !! key
       = state !! key.
Proof.
  revert state tr. induction tasks as [|sec tasks IH]; intros state tr.
  - split; [reflexivity|done].
  - cbn [run_workers run_worker].
    pose proof (generate_final_content_trace env sec
                  (<["last_updated" := PDatetime (now env tr)]>
                     (<["active_section" := PStr (title sec)]> state))
                  docs (tr ++ [EvNow])%list) as Hcontent.
    destruct (generate_final_content env sec _ docs _) as [outcome tr1].
    specialize (IH (<["last_updated" := PDatetime (now env tr)]>
                      (<["active_section" := PStr (title sec)]> state)) tr1).
    destruct (run_workers env docs tasks _) as [futures [state2 tr2]].
    cbn [fst snd] in *. destruct IH as [Hprefix Hkeys]. split.
    + solve_prefix.
    + intros key H1 H2. rewrite Hkeys by done. by simpl_lookups.
Qed.

Lemma collect_sections_shared env futures processed state tr :
  tr `prefix_of` snd (snd (collect_sections env futures processed (state, tr)))
  /\ forall key,
       key <> "draft_report" ->
       fst (snd (collect_sections env futures processed (state, tr))) !! key
       = state !! key.
Proof.
  revert processed state tr.
  induction futures as [|[section_title [section_content|e]] futures IH];
    intros processed state tr; cbn [collect_sections fst snd];
    [split; [reflexivity|done] | | split; [reflexivity|done]].
  destruct (IH (processed ++ [PStr section_title])%list
              (update_section_draft_report env state section_title
                 section_content)
              (tr ++ [EvProgress "agent.knowledge_retrieval" "section_done"])%list)
    as [Hprefix Hkeys].
  split; [solve_prefix|].
  intros key Hkey. rewrite Hkeys by done.
  unfold update_section_draft_report. by simpl_lookups.
Qed.

Lemma create_error_state_run env state agent message status tr :
  create_error_state env state agent message status tr
  = (Ok (<["last_updated" := PDatetime (now env tr)]>
           (<["validation_status" := PStatus status]>
              (<["error_message" := PStr message]>
                 (<["current_agent" := PAgent agent]> state)))),
     ((tr ++ [EvNow]) ++ [EvProgress (agent_operation agent) "error"])%list).
Proof. reflexivity. Qed.










(** *** The paths that read the clock *)















(** ** The section fan-out *)

Lemma omap_lookup_seq {A} (before l : list A) :
  omap (fun i => (before ++ l)%list !! i) (seq (length before) (length l)) = l.
Proof.
  revert before. induction l as [|x l IH]; intros before; [reflexivity|].
  simpl. rewrite lookup_app_r by lia. rewrite Nat.sub_diag. simpl.
  f_equal.
  specialize (IH (before ++ [x])%list).
  rewrite <- app_assoc, length_app in IH. simpl in IH.
  by rewrite Nat.add_1_r in IH.
Qed.

(** Taken in an order that is a permutation of their positions, the tasks
    are a permutation of the tasks. *)
Lemma in_completion_order_permutation env tr tasks :
  Permutation (completion_order env tr (length tasks)) (seq 0 (length tasks)) ->
  Permutation (in_completion_order env tr tasks) tasks.
Proof.
  intros Horder. unfold in_completion_order.
  rewrite Horder.
  pose proof (omap_lookup_seq [] tasks) as Hall. simpl in Hall.
  by rewrite Hall.
Qed.

(** When the model answers every worker, every future holds a content. *)
Lemma run_workers_answers env docs tasks state tr :
  (forall tr' p, is_ok (llm env tr' "agent.knowledge_retrieval" p) = true) ->
  is_Some (state !! "requirements") ->
  is_Some (state !! "user_query") ->
  map fst (fst (run_workers env docs tasks (state, tr))) = map title tasks
  /\ Forall (fun future => is_ok (snd future) = true)
       (fst (run_workers env docs tasks (state, tr))).
Proof.
  intros Hllm. revert state tr.
  induction tasks as [|sec tasks IH]; intros state tr Hreq Hquery;
    [by split|].
  cbn [run_workers run_worker].
  set (state1 := <["last_updated" := PDatetime (now env tr)]>
                   (<["active_section" := PStr (title sec)]> state)).
  assert (Hreq1 : is_Some (state1 !! "requirements"))
    by (subst state1; by simpl_lookups).
  assert (Hquery1 : is_Some (state1 !! "user_query"))
    by (subst state1; by simpl_lookups).
  assert (Hcontent :
            is_ok (fst (generate_final_content env sec state1 docs
                          (tr ++ [EvNow])%list)) = true).
  { unfold generate_final_content, getitem.
    destruct Hreq1 as [requirements ->], Hquery1 as [query ->].
    unfold mbind, M_bind, lift, call_llm. cbn [fst].
    apply Hllm. }
  destruct (generate_final_content env sec state1 docs _) as [outcome tr1].
  specialize (IH state1 tr1 Hreq1 Hquery1).
  destruct (run_workers env docs tasks (state1, tr1)) as [futures shared].
  cbn [fst snd map] in *. destruct IH as [Htitles Hok].
  split; [by rewrite Htitles|]. by constructor.
Qed.

(** The loop collects the title of every future that holds a content. *)
Lemma collect_sections_all env futures processed shared :
  Forall (fun future => is_ok (snd future) = true) futures ->
  fst (collect_sections env futures processed shared)
  = Ok (processed ++ map PStr (map fst futures))%list.
Proof.
  intros Hok. revert processed shared.
  induction Hok as [|[section_title outcome] futures Hhead Htail IH];
    intros processed [state tr]; cbn [collect_sections map fst].
  - by rewrite app_nil_r.
  - destruct outcome as [section_content|e]; [|discriminate].
    rewrite IH, <- app_assoc. reflexivity.
Qed.

(** In every case the loop collects titles of futures, in their order. *)
Lemma collect_sections_prefix env futures processed shared collected :
  fst (collect_sections env futures processed shared) = Ok collected ->
  collected = (processed ++ map PStr (map fst futures))%list.
Proof.
  revert processed shared.
  induction futures as [|[section_title [section_content|e]] futures IH];
    intros processed [state tr]; cbn [collect_sections map fst].
  - intros [= <-]. by rewrite app_nil_r.
  - intros Hrest. rewrite (IH _ _ Hrest), <- app_assoc. reflexivity.
  - discriminate.
Qed.

Lemma run_workers_titles env docs tasks shared :
  map fst (fst (run_workers env docs tasks shared)) = map title tasks.
Proof.
  revert shared. induction tasks as [|sec tasks IH]; intros [state tr];
    [reflexivity|].
  cbn [run_workers run_worker].
  destruct (generate_final_content env sec _ docs _) as [outcome tr1].
  specialize (IH (<["last_updated" := PDatetime (now env tr)]>
                    (<["active_section" := PStr (title sec)]> state), tr1)).
  destruct (run_workers env docs tasks _) as [futures shared'].
  cbn [fst map] in *. by rewrite IH.
Qed.

Lemma filter_unprocessed (outline : list ReportSection) :
  filter (fun sec => title_in (title sec) [] = false) outline = outline.
Proof.
  induction outline as [|sec outline IH]; [reflexivity|].
  rewrite filter_cons_True by reflexivity. by rewrite IH.
Qed.

Lemma knowledge_retrieval_node_processed env state outline tr :
  state !! "structure" = Some (PStructure outline) ->
  get_or state "processed_sections" (PList []) = PList [] ->
  (forall tr' n, Permutation (completion_order env tr' n) (seq 0 n)) ->
  exists state' tr',
    knowledge_retrieval_node env state tr = (Ok state', tr')
    /\ fanned_out state outline state'.
Proof.
  intros Hstructure Hprocessed Horder.
  unfold knowledge_retrieval_node, knowledge_retrieval_body.
  rewrite Hprocessed, (get_lookup _ _ _ Hstructure).
  cbn [py_list truthy negb]. rewrite filter_unprocessed.
  destruct (_ && _);
    [eexists _, _; split; [reflexivity|]; right; by simpl_lookups|].
  destruct (getitem state "user_query") as [query|e];
    [|rewrite create_error_state_run; eexists _, _; split; [reflexivity|];
      right; by simpl_lookups].
  unfold run_deep_search.
  destruct (deep_search env _ query) as [docs|e];
    [|rewrite create_error_state_run; eexists _, _; split; [reflexivity|];
      right; by simpl_lookups].
  destruct (section_concurrency env) as [concurrency|e];
    [|rewrite create_error_state_run; eexists _, _; split; [reflexivity|];
      right; by simpl_lookups].
  destruct (concurrency <=? 0);
    [rewrite create_error_state_run; eexists _, _; split; [reflexivity|];
     right; by simpl_lookups|].
  match goal with
  | |- context [run_workers env docs ?tasks (state, ?t)] =>
      pose proof (run_workers_shared env docs tasks state t) as [_ Hwkeys];
      pose proof (run_workers_titles env docs tasks (state, t)) as Htitles;
      pose proof (in_completion_order_permutation env t (sections outline)
                    (Horder _ _)) as Hperm;
      destruct (run_workers env docs tasks (state, t))
        as [futures [state1 tr1]]
  end.
  cbn [fst snd] in Hwkeys, Htitles.
  pose proof (collect_sections_shared env futures [] state1 tr1)
    as [_ Hckeys].
  pose proof (collect_sections_prefix env futures [] (state1, tr1)) as Hcollected.
  destruct (collect_sections env futures [] (state1, tr1))
    as [[collected|e] [state2 tr2]]; cbn [fst snd] in Hckeys, Hcollected.
  - eexists _, _. split; [reflexivity|]. left.
    exists (map fst futures). simpl_lookups.
    rewrite (Hcollected collected eq_refl). split; [reflexivity|].
    rewrite Htitles. by apply Permutation_map.
  - rewrite create_error_state_run. eexists _, _. split; [reflexivity|].
    right. simpl_lookups. rewrite Hckeys, Hwkeys by done. reflexivity.
Qed.

#[local] Instance PStr_inj : Inj eq eq PStr.
Proof. by intros s1 s2 [= ->]. Qed.

(** The loop stops at the first future that holds an exception. *)
Lemma collect_sections_fails env futures processed shared :
  Exists (fun future => is_ok (snd future) = false) futures ->
  exists e, fst (collect_sections env futures processed shared) = Raise e.
Proof.
  intros Hfails. revert processed shared.
  induction futures as [|[section_title [section_content|e]] futures IH];
    intros processed [state tr]; cbn [collect_sections fst].
  - by apply Exists_nil in Hfails.
  - apply Exists_cons in Hfails as [Hhead|Htail]; [discriminate|].
    by apply IH.
  - by exists e.
Qed.

Lemma knowledge_retrieval_node_outcome env state outline query concurrency tr :
  state !! "structure" = Some (PStructure outline) ->
  get_or state "processed_sections" (PList []) = PList [] ->
  state !! "user_query" = Some query ->
  section_concurrency env = Ok concurrency -> 1 <= concurrency ->
  exists state' tr',
    knowledge_retrieval_node env state tr = (Ok state', tr')
    /\ (forall e,
           deep_search env (search_trace tr) query = Raise e ->
           fan_out_failed state state')
    /\ (forall docs,
           deep_search env (search_trace tr) query = Ok docs ->
           (Forall (fun future => is_ok (snd future) = true)
              (section_futures env state outline docs (fan_out_trace tr query)) ->
            state' !! "processed_sections"
            = Some (PList (map PStr
                             (map title
                                (in_completion_order env
                                   (fan_out_trace tr query)
                                   (sections outline))))))
           /\ (Exists (fun future => is_ok (snd future) = false)
                 (section_futures env state outline docs
                    (fan_out_trace tr query)) ->
               fan_out_failed state state')).
Proof.
  intros Hstructure Hprocessed Hquery Hpool Hworkers.
  unfold knowledge_retrieval_node, knowledge_retrieval_body.
  rewrite Hprocessed, (get_lookup _ _ _ Hstructure).
  cbn [py_list truthy negb length]. rewrite filter_unprocessed.
  replace (negb (bool_decide (length (sections outline) = 0%nat))
           && (length (sections outline) <=? 0)%nat) with false
    by (destruct (sections outline); reflexivity).
  unfold getitem. rewrite Hquery. unfold run_deep_search.
  fold (search_trace tr).
  destruct (deep_search env (search_trace tr) query) as [docs|e].
  - rewrite Hpool. rewrite (proj2 (Z.leb_gt concurrency 0)) by lia.
    fold (fan_out_trace tr query).
    pose proof (run_workers_shared env docs
                  (in_completion_order env (fan_out_trace tr query)
                     (sections outline))
                  state (fan_out_trace tr query)) as [_ Hwkeys].
    pose proof (run_workers_titles env docs
                  (in_completion_order env (fan_out_trace tr query)
                     (sections outline))
                  (state, fan_out_trace tr query)) as Htitles.
    destruct (run_workers env docs _ (state, fan_out_trace tr query))
      as [futures [state1 tr1]] eqn:Hfutures.
    cbn [fst snd] in Hwkeys, Htitles.
    pose proof (collect_sections_shared env futures [] state1 tr1)
      as [_ Hckeys].
    pose proof (collect_sections_all env futures [] (state1, tr1)) as Hall.
    pose proof (collect_sections_fails env futures [] (state1, tr1)) as Hfails.
    destruct (collect_sections env futures [] (state1, tr1))
      as [[collected|e] [state2 tr2]]; cbn [fst snd] in Hckeys, Hall, Hfails.
    + eexists _, _. split; [reflexivity|]. split; [discriminate|].
      intros docs' [= <-]. unfold section_futures. rewrite Hfutures.
      cbn [fst]. split.
      * intros Hok. specialize (Hall Hok). injection Hall as ->.
        simpl_lookups. by rewrite Htitles.
      * intros Hsome. by destruct (Hfails Hsome).
    + rewrite create_error_state_run. eexists _, _.
      split; [reflexivity|]. split; [discriminate|].
      intros docs' [= <-]. unfold section_futures. rewrite Hfutures.
      cbn [fst]. split.
      * intros Hok. by specialize (Hall Hok).
      * intros _. split; simpl_lookups; [reflexivity|].
        by rewrite Hckeys, Hwkeys.
  - rewrite create_error_state_run. eexists _, _.
    split; [reflexivity|]. split; [|discriminate].
    intros _ _. split; by simpl_lookups.
Qed.

(** C9, as the code has it.  Take a state with an outline of N sections
    with distinct titles, no processed section and a query, and a pool of
    at least one worker; the workers may complete in any order.  The stage
    returns a state whose [processed_sections] has no duplicate and at most
    N entries.  When the search raises, the stage returns a failed state
    that leaves [processed_sections] as it was.  When the search returns,
    the futures of the sections are taken in the order of their
    completion, which is a permutation of the outline: when every future
    holds a content, [processed_sections] is the list of the N titles in
    that order; when one of them holds an exception, the stage returns a
    failed state that leaves [processed_sections] as it was.  Every future
    holds a content when the requirements are in the state and the model
    answers every call for a section. *)
Theorem knowledge_retrieval_fan_out env state outline query concurrency tr :
  state !! "structure" = Some (PStructure outline) ->
  get_or state "processed_sections" (PList []) = PList [] ->
  NoDup (map title (sections outline)) ->
  (forall tr' n, Permutation (completion_order env tr' n) (seq 0 n)) ->
  state !! "user_query" = Some query ->
  section_concurrency env = Ok concurrency -> 1 <= concurrency ->
  exists state' tr',
    knowledge_retrieval_node env state tr = (Ok state', tr')
    /\ (forall entries,
           state' !! "processed_sections" = Some (PList entries) ->
           (length entries <= length (sections outline))%nat
           /\ NoDup entries)
    /\ (forall e,
           deep_search env (search_trace tr) query = Raise e ->
           fan_out_failed state state')
    /\ (forall docs,
           deep_search env (search_trace tr) query = Ok docs ->
           let completed :=
             in_completion_order env (fan_out_trace tr query)
               (sections outline) in
           let futures :=
             section_futures env state outline docs (fan_out_trace tr query) in
           Permutation (map title completed) (map title (sections outline))
           /\ (Forall (fun future => is_ok (snd future) = true) futures ->
               state' !! "processed_sections"
               = Some (PList (map PStr (map title completed))))
           /\ (Exists (fun future => is_ok (snd future) = false) futures ->
               fan_out_failed state state')
           /\ (is_Some (state !! "requirements") ->
               (forall tr' p,
                   is_ok (llm env tr' "agent.knowledge_retrieval" p) = true) ->
               Forall (fun future => is_ok (snd future) = true) futures)).
Proof.
  intros Hstructure Hprocessed Hdistinct Horder Hquery Hpool Hworkers.
  destruct (knowledge_retrieval_node_outcome env state outline query
              concurrency tr Hstructure Hprocessed Hquery Hpool Hworkers)
    as (state' & tr' & Hrun & Hsearch & Hfan).
  exists state', tr'. split; [exact Hrun|]. split; [|split].
  - destruct (knowledge_retrieval_node_processed env state outline tr
                Hstructure Hprocessed Horder)
      as (state'' & tr'' & Hrun' & Hfanned).
    rewrite Hrun in Hrun'. injection Hrun' as <- <-.
    intros entries Hentries.
    destruct Hfanned as [(titles & Htitles & Hperm) | Hsame].
    + rewrite Htitles in Hentries. injection Hentries as <-.
      rewrite length_map, (Permutation_length Hperm), length_map.
      split; [lia|].
      apply (NoDup_fmap_2 PStr). by rewrite Hperm.
    + rewrite Hsame in Hentries. unfold get_or in Hprocessed.
      rewrite Hentries in Hprocessed. injection Hprocessed as ->.
      split; [simpl; lia|constructor].
  - exact Hsearch.
  - intros docs Hdocs completed futures.
    destruct (Hfan docs Hdocs) as [Hall Hfails].
    split; [|split; [exact Hall|split; [exact Hfails|]]].
    + apply Permutation_map, in_completion_order_permutation, Horder.
    + intros Hreq Hllm.
      apply (run_workers_answers env docs completed state
               (fan_out_trace tr query) Hllm Hreq).
      by exists query.
Qed.

Lemma knowledge_retrieval_fan_out_witness :
  planned_state !! "structure" = Some (PStructure two_sections)
  /\ get_or planned_state "processed_sections" (PList []) = PList []
  /\ NoDup (map title (sections two_sections))
  /\ (forall tr' n, Permutation (completion_order reversed_env tr' n) (seq 0 n))
  /\ planned_state !! "user_query" = Some (PStr "topic")
  /\ section_concurrency reversed_env = Ok 2
  /\ exists state' tr',
       knowledge_retrieval_node reversed_env planned_state []
       = (Ok state', tr')
       /\ state' !! "processed_sections"
          = Some (PList [PStr "Outlook"; PStr "Background"]).
Proof.
  assert (Hdistinct : NoDup (map title (sections two_sections)))
    by compute_done.
  assert (Horder : forall (tr' : list event) n,
             Permutation (completion_order reversed_env tr' n) (seq 0 n))
    by (intros tr' n; symmetry; apply Permutation_rev).
  split; [reflexivity|]. split; [reflexivity|].
  split; [exact Hdistinct|]. split; [exact Horder|].
  split; [reflexivity|]. split; [reflexivity|].
  destruct (knowledge_retrieval_fan_out reversed_env planned_state
              two_sections (PStr "topic") 2 [] eq_refl eq_refl Hdistinct
              Horder eq_refl eq_refl)
    as (state' & tr' & Hrun & _ & _ & Hfan); [lia|].
  exists state', tr'. split; [exact Hrun|].
  destruct (Hfan [] eq_refl) as (_ & Hall & _ & Hanswers).
  apply Hall, Hanswers; [by eexists|reflexivity].
Defined.

(** The titles come out in the order of completion: here the second
    section first. *)
Lemma reversed_fan_out :
  returned (knowledge_retrieval_node reversed_env planned_state [])
    !! "processed_sections"
  = Some (PList [PStr "Outlook"; PStr "Background"]).
Proof. vm_compute. reflexivity. Qed.

(** C9 as stated fails: with an outline of two sections and a model that
    cannot be reached, the stage returns an error state in which no section
    is processed. *)
Lemma knowledge_retrieval_fan_out_counterexample :
  planned_state !! "structure" = Some (PStructure two_sections)
  /\ length (sections two_sections) = 2%nat
  /\ section_concurrency offline_env = Ok 2
  /\ is_ok (fst (knowledge_retrieval_node offline_env planned_state [])) = true
  /\ returned (knowledge_retrieval_node offline_env planned_state [])
       !! "processed_sections"
     = Some (PList [])
  /\ returned (knowledge_retrieval_node offline_env planned_state [])
       !! "validation_status"
     = Some (PStatus FAILED).
Proof. repeat split; vm_compute; reflexivity. Qed.

(** ** The checkpoint store *)

Lemma intent_of_value_value i : intent_of_value (intent_value i) = Some i.
Proof. by destruct i. Qed.

Lemma domain_of_value_value d : domain_of_value (domain_value d) = Some d.
Proof. by destruct d. Qed.

Lemma status_of_value_value v : status_of_value (status_value v) = Some v.
Proof. by destruct v. Qed.

Lemma agent_of_value_value a : agent_of_value (agent_value a) = Some a.
Proof. by destruct a. Qed.

Lemma section_status_of_value_value s :
  section_status_of_value (section_status_value s) = Some s.
Proof. by destruct s. Qed.

Lemma dict_get_cons k x d key :
  dict_get ((k, x) :: d) key
  = if bool_decide (k = key) then Some x else dict_get d key.
Proof. unfold dict_get. simpl. by case_bool_decide. Qed.

Lemma dict_get_set d key v : dict_get (dict_set d key v) key = Some v.
Proof.
  induction d as [|[k x] d IH]; simpl.
  - rewrite dict_get_cons. by rewrite bool_decide_eq_true_2.
  - case_bool_decide as Hk; rewrite dict_get_cons.
    + by rewrite bool_decide_eq_true_2.
    + by rewrite bool_decide_eq_false_2.
Qed.

Lemma dict_get_set_ne d key key' v :
  key <> key' -> dict_get (dict_set d key v) key' = dict_get d key'.
Proof.
  intros Hne. induction d as [|[k x] d IH]; simpl.
  - rewrite dict_get_cons. by rewrite bool_decide_eq_false_2.
  - case_bool_decide as Hk; rewrite !dict_get_cons.
    + subst k. by rewrite bool_decide_eq_false_2.
    + by rewrite IH.
Qed.

Lemma find_none_forall {A} (f : A -> bool) (l : list A) :
  (forall x, In x l -> f x = false) -> List.find f l = None.
Proof.
  induction l as [|x l IH]; intros Hall; [reflexivity|]. simpl.
  rewrite (Hall x) by (by left). apply IH. intros y Hy. apply Hall. by right.
Qed.

Lemma intent_value_alias i : In (intent_value i) (map fst alias_map).
Proof. destruct i; simpl; repeat first [left; reflexivity | right]. Qed.

Lemma intent_name_lower_value i : intent_name_lower i = intent_value i.
Proof. by destruct i. Qed.

(** A string that, normalised, is a key of the alias table is read as the
    member the table gives. *)
Lemma coerce_analysis_intent_alias `{PyLib} text alias canonical :
  In (alias, canonical) alias_map ->
  strip_lower text = alias ->
  intent_value (coerce_analysis_intent (PStr text)) = canonical.
Proof.
  intros Hin Hstrip. unfold coerce_analysis_intent. cbn [as_str]. cbv zeta.
  rewrite Hstrip. clear Hstrip. simpl in Hin.
  repeat (destruct Hin as [Hin|Hin];
          [inversion Hin; subst; vm_compute; reflexivity|]).
  destruct Hin.
Qed.

(** Anything else is read as the overview. *)
Lemma coerce_analysis_intent_default `{PyLib} value :
  (forall text, as_str value = Some text ->
                ~ In (strip_lower text) (map fst alias_map)) ->
  coerce_analysis_intent value = OVERVIEW.
Proof.
  intros Hnot. unfold coerce_analysis_intent.
  destruct (as_str value) as [text|]; [|reflexivity].
  specialize (Hnot text eq_refl). cbv zeta.
  generalize dependent (strip_lower text). intros normalized Hnot.
  rewrite (find_none_forall _ alias_map); cycle 1.
  { intros [alias canonical] Hin. apply String.eqb_neq. intros Heq.
    apply Hnot. rewrite <- Heq. by apply (in_map fst) in Hin. }
  cbn [fmap option_fmap option_map default].
  unfold intent_of_value, by_value.
  rewrite (find_none_forall _ all_intents); cycle 1.
  { intros i _. apply bool_decide_eq_false_2. intros Heq.
    apply Hnot. rewrite <- Heq. apply intent_value_alias. }
  rewrite (find_none_forall _ all_intents); [reflexivity|].
  intros i _. apply String.eqb_neq. rewrite intent_name_lower_value.
  intros Heq. apply Hnot. rewrite <- Heq. apply intent_value_alias.
Qed.

Lemma from_serializable_requirements `{PyLib} d dom intent :
  ((dict_get d "domain" ≫= as_str) ≫= domain_of_value) = Some dom ->
  dict_get d "analysis_intent" = Some intent ->
  from_serializable "requirements" (PDict d)
  = Ok (PQuery {| domain := dom;
                  analysis_intent := coerce_analysis_intent intent |}).
Proof.
  intros Hdom Hintent. unfold from_serializable. cbn [is_none].
  change (String.eqb "requirements" "start_time") with false.
  change (String.eqb "requirements" "last_updated") with false.
  change (String.eqb "requirements" "validation_status") with false.
  change (String.eqb "requirements" "current_agent") with false.
  change (String.eqb "requirements" "requirements") with true.
  cbn [orb andb]. rewrite Hintent. unfold validate_query.
  rewrite dict_get_set_ne by done. rewrite Hdom, dict_get_set.
  cbn [mbind option_bind as_str]. rewrite intent_of_value_value.
  reflexivity.
Qed.

Lemma restore_items_ok `{PyLib} data restored :
  is_ok (restore_items data restored)
  = forallb (fun kv => is_ok (from_serializable (fst kv) (snd kv))) data.
Proof.
  revert restored. induction data as [|[k v] data IH]; intros restored;
    [reflexivity|].
  simpl. destruct (from_serializable k v); simpl; [apply IH|reflexivity].
Qed.

(** C7, amended.  Reading a snapshot fails exactly when reading one of
    its fields fails.  The analysis intent of the requirements never
    makes it fail: a string that, stripped and in lower case, is a key of the
    alias table is read as the member the table gives, and every other value
    as the overview.  The validation status and the current agent have no
    alias table: a string there is read by the enumeration itself, and one
    that is not the value of a member raises [ValueError]. *)
Theorem deserialize_state_spellings `{PyLib} :
  (forall data,
     is_ok (deserialize_state data)
     = forallb (fun kv => is_ok (from_serializable (fst kv) (snd kv))) data)
  /\ (forall text alias canonical,
        In (alias, canonical) alias_map ->
        strip_lower text = alias ->
        intent_value (coerce_analysis_intent (PStr text)) = canonical)
  /\ (forall value,
        (forall text, as_str value = Some text ->
                      ~ In (strip_lower text) (map fst alias_map)) ->
        coerce_analysis_intent value = OVERVIEW)
  /\ (forall d dom intent,
        ((dict_get d "domain" ≫= as_str) ≫= domain_of_value) = Some dom ->
        dict_get d "analysis_intent" = Some intent ->
        from_serializable "requirements" (PDict d)
        = Ok (PQuery {| domain := dom;
                        analysis_intent := coerce_analysis_intent intent |}))
  /\ (forall text,
        from_serializable "validation_status" (PStr text)
        = match status_of_value text with
          | Some v => Ok (PStatus v)
          | None => Raise "ValueError: not a valid ValidationStatus"
          end)
  /\ (forall text,
        from_serializable "current_agent" (PStr text)
        = match agent_of_value text with
          | Some a => Ok (PAgent a)
          | None => Raise "ValueError: not a valid AgentName"
          end).
Proof.
  split; [intros data; apply restore_items_ok|].
  split; [apply @coerce_analysis_intent_alias|].
  split; [apply @coerce_analysis_intent_default|].
  split; [apply @from_serializable_requirements|].
  split; intros text; reflexivity.
Qed.

(** A snapshot whose requirements spell the intent by an alias, with blanks
    around it, and one whose intent is not a string at all. *)
Lemma deserialize_state_spellings_witness :
  deserialize_state (H := Reference.lib)
    [("requirements",
      PDict [("domain", PStr "通用"); ("analysis_intent", PStr " Comparison ")])]
  = Ok {[ "requirements" :=
            PQuery {| domain := GENERAL; analysis_intent := COMPARISON |} ]}
  /\ from_serializable (H := Reference.lib) "requirements"
       (PDict [("domain", PStr "通用"); ("analysis_intent", PInt 3)])
     = Ok (PQuery {| domain := GENERAL; analysis_intent := OVERVIEW |}).
Proof.
  destruct (deserialize_state_spellings (H := Reference.lib))
    as (_ & _ & Hdefault & Hrequirements & _).
  split; [vm_compute; reflexivity|].
  rewrite (Hrequirements _ GENERAL (PInt 3)) by reflexivity.
  rewrite Hdefault; [reflexivity|]. intros text Htext. discriminate.
Defined.

(** C7 as stated fails on the status fields.  The name of a member in
    place of its value, the value with a blank after it and the value with
    a hyphen for the underscore all make the reader raise, and so does
    loading a file that holds such a snapshot. *)
Lemma deserialize_state_spellings_counterexample :
  deserialize_state (H := Reference.lib)
    [("validation_status", PStr "VALIDATED")]
  = Raise "ValueError: not a valid ValidationStatus"
  /\ deserialize_state (H := Reference.lib)
       [("validation_status", PStr "validated ")]
     = Raise "ValueError: not a valid ValidationStatus"
  /\ deserialize_state (H := Reference.lib)
       [("validation_status", PStr "needs-revision")]
     = Raise "ValueError: not a valid ValidationStatus"
  /\ deserialize_state (H := Reference.lib)
       [("current_agent", PStr "REVISION")]
     = Raise "ValueError: not a valid AgentName"
  /\ load_checkpoint (H := Reference.lib) "checkpoint.json"
       {[ "checkpoint.json" :=
            fold_left text_append
              (json_render
                 (JObj [("state",
                         JObj [("validation_status", JStr "VALIDATED")])]))
              text_empty ]}
     = Raise "ValueError: not a valid ValidationStatus".
Proof. repeat split; vm_compute; reflexivity. Qed.

Lemma fs_run_app `{PyLib} steps steps' fs :
  fs_run (steps ++ steps')%list fs = fs_run steps' (fs_run steps fs).
Proof. unfold fs_run. apply fold_left_app. Qed.

Lemma fs_run_writes `{PyLib} path chunks fs written :
  fs !! path = Some written ->
  fs_run (map (FsWrite path) chunks) fs !! path
  = Some (fold_left text_append chunks written).
Proof.
  revert fs written. induction chunks as [|chunk chunks IH];
    intros fs written Hpath; [exact Hpath|].
  cbn [map fs_run fold_left fs_apply]. apply IH.
  rewrite Hpath. cbn [default]. apply lookup_insert_eq.
Qed.

Lemma fs_run_other `{PyLib} steps fs path other :
  Forall (fun step => step_path step = path) steps ->
  other <> path ->
  fs_run steps fs !! other = fs !! other.
Proof.
  intros Hsteps Hother. revert fs.
  induction Hsteps as [|step steps Hstep _ IH]; intros fs; [reflexivity|].
  cbn [fs_run fold_left]. unfold fs_run in IH. rewrite IH.
  destruct step as [p|p chunk]; cbn [step_path] in Hstep; subst p;
    cbn [fs_apply]; by rewrite lookup_insert_ne.
Qed.

(** C3, amended.  [save_checkpoint] writes in place.  With [document] the
    encoding of the payload, its steps are the opening of the target for
    writing, which empties it, and the writing into the target of the
    chunks [json.dump] makes of [document], one after the other: no other
    path is written and nothing is renamed.  No other file changes at any
    point of the write.  After the opening and the first [n] chunks the
    target holds exactly these [n] chunks of [document], so from the first
    step on the snapshot that was there is gone, and only after the whole
    write does the target hold the whole of [document]. *)
Theorem save_checkpoint_in_place `{PyLib} (state : GlobalState)
    (saved_at : datetime) (path : string) (fs : gmap string text)
    (document : json) :
  json_encode (checkpoint_payload state saved_at) = Ok document ->
  save_checkpoint_steps state saved_at path
  = FsOpenWrite path :: map (FsWrite path) (json_render document)
  /\ (forall n,
        fs_run (take (S n) (save_checkpoint_steps state saved_at path)) fs
          !! path
        = Some (fold_left text_append (take n (json_render document))
                  text_empty))
  /\ (forall n other,
        other <> path ->
        fs_run (take n (save_checkpoint_steps state saved_at path)) fs
          !! other
        = fs !! other)
  /\ save_checkpoint state saved_at path fs !! path
     = Some (fold_left text_append (json_render document) text_empty).
Proof.
  intros Hdocument. unfold save_checkpoint, save_checkpoint_steps.
  rewrite Hdocument.
  split; [reflexivity|]. split; [|split].
  - intros n. cbn [take]. rewrite <- fmap_take.
    change (fs_run (FsOpenWrite path :: ?l) fs)
      with (fs_run l (<[path := text_empty]> fs)).
    apply fs_run_writes, lookup_insert_eq.
  - intros n other Hother. apply fs_run_other with (path := path);
      [|exact Hother].
    apply Forall_take. constructor; [reflexivity|].
    apply Forall_fmap, Forall_true. reflexivity.
  - change (fs_run (FsOpenWrite path :: ?l) fs)
      with (fs_run l (<[path := text_empty]> fs)).
    apply fs_run_writes, lookup_insert_eq.
Qed.

(** The snapshot of a run just started, written at time 20 into a
    directory that holds another file: the payload has an encoding, and
    after the opening and the first chunk the other file is as it was. *)
Lemma save_checkpoint_in_place_witness :
  exists document,
    json_encode
      (checkpoint_payload (H := Reference.lib) (create_init_state "topic" 7) 20)
    = Ok document
    /\ fs_run
         (take 2
            (save_checkpoint_steps (H := Reference.lib)
               (create_init_state "topic" 7) 20 "checkpoint.json"))
         {[ "notes.txt" := [Reference.TStr "kept"] ]}
         !! "notes.txt"
       = Some [Reference.TStr "kept"].
Proof.
  destruct (json_encode
              (checkpoint_payload (H := Reference.lib)
                 (create_init_state "topic" 7) 20))
    as [document|e] eqn:Hdocument; [|vm_compute in Hdocument; discriminate].
  exists document. split; [reflexivity|].
  destruct (save_checkpoint_in_place (H := Reference.lib)
              (create_init_state "topic" 7) 20 "checkpoint.json"
              {[ "notes.txt" := [Reference.TStr "kept"] ]} document Hdocument)
    as (_ & _ & Hother & _).
  rewrite Hother; [reflexivity|discriminate].
Defined.

(** C3 as stated fails.  The first snapshot loads.  A second write
    interrupted after its first step leaves the target empty, and one
    interrupted after three steps leaves it with the first two lexemes of
    the new document; neither loads, and the first snapshot is nowhere. *)
Lemma save_checkpoint_in_place_counterexample :
  is_ok (load_checkpoint (H := Reference.lib) "checkpoint.json" first_snapshot)
  = true
  /\ interrupted 1 = {[ "checkpoint.json" := [] ]}
  /\ load_checkpoint (H := Reference.lib) "checkpoint.json" (interrupted 1)
     = Raise "JSONDecodeError"
  /\ interrupted 3
     = {[ "checkpoint.json" := [Reference.TOpenObj; Reference.TStr "state"] ]}
  /\ load_checkpoint (H := Reference.lib) "checkpoint.json" (interrupted 3)
     = Raise "JSONDecodeError".
Proof. repeat split; vm_compute; reflexivity. Qed.

(** *** Saving and loading *)

Lemma pyval_nested_ind (P : pyval -> Prop) :
  (forall v, match v with PList _ | PDict _ => False | _ => True end -> P v) ->
  (forall l, Forall P l -> P (PList l)) ->
  (forall d, Forall (fun kv => P (snd kv)) d -> P (PDict d)) ->
  forall v, P v.
Proof.
  intros Hatom Hlist Hdict. fix IH 1. intros v.
  destruct v as [| | | | |l|d| | | | |]; try (by apply Hatom).
  - apply Hlist. induction l as [|x l IHl]; constructor; [apply IH|exact IHl].
  - apply Hdict.
    induction d as [|[k x] d IHd]; constructor; [apply IH|exact IHd].
Qed.

Lemma to_serializable_plain `{PyLib} v :
  plain v = true -> to_serializable v = v.
Proof.
  induction v as [v Hv|l IH|d IH] using pyval_nested_ind.
  - by destruct v.
  - cbn [plain to_serializable]. intros Hall. f_equal.
    induction IH as [|x l Hx _ IHl]; [reflexivity|].
    cbn [forallb map] in *. apply andb_prop in Hall as [Hp Hall].
    by rewrite Hx, IHl.
  - cbn [plain to_serializable]. intros [_ Hall]%andb_prop. f_equal.
    induction IH as [|[k x] d Hx _ IHd]; [reflexivity|].
    cbn [forallb map fst snd] in *. apply andb_prop in Hall as [Hp Hall].
    by rewrite Hx, IHd.
Qed.

Lemma json_encode_plain v :
  plain v = true ->
  exists j, json_encode v = Ok j /\ json_decode j = v
            /\ json_keys_distinct j = true.
Proof.
  induction v as [v Hv|l IH|d IH] using pyval_nested_ind.
  - destruct v; try done; intros _; eexists; by repeat split.
  - cbn [plain]. intros Hall.
    enough (exists js, json_encode (PList l) = Ok (JArr js)
                       /\ map json_decode js = l
                       /\ forallb json_keys_distinct js = true)
      as (js & Hjs & Hback & Hkeys).
    { exists (JArr js). repeat split; [done| |done].
      cbn [json_decode]. by rewrite Hback. }
    induction IH as [|x l Hx _ IHl]; [by exists []|].
    cbn [forallb] in Hall. apply andb_prop in Hall as [Hp Hall].
    destruct (Hx Hp) as (j & Hj & Hjback & Hjkeys).
    destruct (IHl Hall) as (js & Hjs & Hback & Hkeys).
    exists (j :: js). cbn [json_encode] in *. rewrite Hj, Hjs.
    repeat split; cbn [map forallb]; [by rewrite Hjback, Hback|].
    by rewrite Hjkeys, Hkeys.
  - cbn [plain]. intros [Hdistinct Hall]%andb_prop.
    apply bool_decide_eq_true_1 in Hdistinct.
    enough (exists js, json_encode (PDict d) = Ok (JObj js)
                       /\ map (fun kv => (fst kv, json_decode (snd kv))) js = d
                       /\ map fst js = map fst d
                       /\ forallb (fun kv => json_keys_distinct (snd kv)) js
                          = true)
      as (js & Hjs & Hback & Hnames & Hkeys).
    { exists (JObj js). repeat split; [done| |].
      - cbn [json_decode]. by rewrite Hback.
      - cbn [json_keys_distinct]. rewrite Hnames, Hkeys.
        by rewrite bool_decide_eq_true_2. }
    clear Hdistinct. induction IH as [|[k x] d Hx _ IHd]; [by exists []|].
    cbn [forallb snd] in Hall, Hx. apply andb_prop in Hall as [Hp Hall].
    destruct (Hx Hp) as (j & Hj & Hjback & Hjkeys).
    destruct (IHd Hall) as (js & Hjs & Hback & Hnames & Hkeys).
    exists ((k, j) :: js). cbn [json_encode] in *. rewrite Hj, Hjs.
    repeat split; cbn [map forallb fst snd].
    + by rewrite Hjback, Hback.
    + by rewrite Hnames.
    + by rewrite Hjkeys, Hkeys.
Qed.

Ltac eval_keys :=
  repeat match goal with
    | |- context [String.eqb ?a ?b] =>
        let r := eval vm_compute in (String.eqb a b) in
        match r with
        | true => change (String.eqb a b) with true
        | false => change (String.eqb a b) with false
        end
    end.

Lemma dict_get_here k x d : dict_get ((k, x) :: d) k = Some x.
Proof. rewrite dict_get_cons. by rewrite bool_decide_eq_true_2. Qed.

Lemma dict_get_skip k x d key :
  k <> key -> dict_get ((k, x) :: d) key = dict_get d key.
Proof. intros Hne. rewrite dict_get_cons. by rewrite bool_decide_eq_false_2. Qed.

Ltac dict_lookup :=
  repeat first [rewrite dict_get_here | rewrite dict_get_skip by done].

Lemma plain_strs l : forallb plain (map PStr l) = true.
Proof. induction l as [|s l IH]; [reflexivity|exact IH]. Qed.

Lemma str_list_strs l : str_list (PList (map PStr l)) = Some l.
Proof.
  cbn [str_list]. induction l as [|s l IH]; [reflexivity|].
  cbn [map mapM as_str]. rewrite IH. reflexivity.
Qed.

Lemma plain_dump_section sec : plain (dump_section sec) = true.
Proof.
  unfold dump_section. cbn [plain forallb map fst snd].
  rewrite !plain_strs. reflexivity.
Qed.

Lemma validate_section_dump sec : validate_section (dump_section sec) = Some sec.
Proof.
  destruct sec as [t q c s st]. unfold dump_section, validate_section.
  cbn [title key_questions content sources status]. dict_lookup.
  cbn [mbind option_bind as_str]. rewrite !str_list_strs.
  cbn [mbind option_bind]. rewrite section_status_of_value_value.
  reflexivity.
Qed.

Lemma plain_dump_sections l : forallb plain (map dump_section l) = true.
Proof.
  induction l as [|sec l IH]; [reflexivity|]. cbn [map forallb].
  by rewrite plain_dump_section, IH.
Qed.

Lemma validate_sections_dump l :
  mapM validate_section (map dump_section l) = Some l.
Proof.
  induction l as [|sec l IH]; [reflexivity|]. cbn [map mapM].
  rewrite validate_section_dump, IH. reflexivity.
Qed.

Lemma plain_dump_structure r : plain (dump_structure r) = true.
Proof.
  unfold dump_structure. cbn [plain forallb map fst snd].
  rewrite plain_dump_sections. reflexivity.
Qed.

Lemma plain_dump_query q : plain (dump_query q) = true.
Proof. reflexivity. Qed.

Lemma validate_structure_dump r d :
  dump_structure r = PDict d -> validate_structure d = Ok r.
Proof.
  destruct r as [t l e c n k]. unfold dump_structure.
  cbn [template_type sections executive_summary_required
       recommendations_required target_length length_tolerance].
  intros [= <-]. unfold validate_structure. dict_lookup.
  cbn [mbind option_bind as_str as_bool as_int].
  rewrite validate_sections_dump. reflexivity.
Qed.

Lemma lower_snake_intent_value i : lower_snake (intent_value i) = true.
Proof. by destruct i. Qed.

Lemma coerce_analysis_intent_value `{PyLib} i :
  coerce_analysis_intent (PStr (intent_value i)) = i.
Proof.
  unfold coerce_analysis_intent. cbn [as_str]. cbv zeta.
  rewrite strip_lower_snake by apply lower_snake_intent_value.
  by destruct i.
Qed.

Lemma restorable_plain `{PyLib} key v :
  restorable key v = true -> plain (to_serializable v) = true.
Proof.
  destruct v; cbn [restorable]; try done.
  - intros Hplain. by rewrite (to_serializable_plain (PList l)).
  - intros [[Hplain _]%andb_prop _]%andb_prop.
    by rewrite (to_serializable_plain (PDict d)).
  - intros _. apply plain_dump_structure.
Qed.

Lemma not_a_string (o : option string) : o = None -> bool_decide (is_Some o) = false.
Proof. intros ->. apply bool_decide_eq_false_2, is_Some_None. Qed.

Lemma from_serializable_to_serializable `{PyLib} key v :
  restorable key v = true -> from_serializable key (to_serializable v) = Ok v.
Proof.
  destruct v; cbn [restorable].
  - reflexivity.
  - intros _. unfold from_serializable. cbn [to_serializable is_none as_str].
    rewrite not_a_string, !andb_false_r by done. reflexivity.
  - intros _. unfold from_serializable. cbn [to_serializable is_none as_str].
    rewrite not_a_string, !andb_false_r by done. reflexivity.
  - intros _. unfold from_serializable. cbn [to_serializable is_none as_str].
    rewrite not_a_string, !andb_false_r by done. reflexivity.
  - unfold from_serializable. cbn [to_serializable is_none as_str].
    destruct (String.eqb key "start_time"), (String.eqb key "last_updated"),
      (String.eqb key "validation_status"), (String.eqb key "current_agent");
      try discriminate; reflexivity.
  - intros Hplain. rewrite (to_serializable_plain (PList l)) by done.
    unfold from_serializable. cbn [is_none as_str].
    rewrite not_a_string, !andb_false_r by done. reflexivity.
  - intros [[Hplain Hrequirements]%andb_prop Hstructure]%andb_prop.
    rewrite (to_serializable_plain (PDict d)) by done.
    unfold from_serializable. cbn [is_none as_str].
    rewrite not_a_string, !andb_false_r by done.
    apply negb_true_iff in Hrequirements, Hstructure.
    by rewrite Hrequirements, Hstructure.
  - intros Hkey. unfold from_serializable.
    cbn [to_serializable is_none as_str]. rewrite Hkey.
    rewrite bool_decide_eq_true_2 by eauto. cbn [andb default].
    unfold _deserialize_datetime, _serialize_datetime, id.
    rewrite fromisoformat_isoformat. reflexivity.
  - intros ->%String.eqb_eq. unfold from_serializable.
    cbn [to_serializable is_none as_str]. eval_keys.
    rewrite bool_decide_eq_true_2 by eauto.
    cbn [orb andb mbind option_bind]. rewrite status_of_value_value.
    reflexivity.
  - intros ->%String.eqb_eq. unfold from_serializable.
    cbn [to_serializable is_none as_str]. eval_keys.
    rewrite bool_decide_eq_true_2 by eauto.
    cbn [orb andb mbind option_bind]. rewrite agent_of_value_value.
    reflexivity.
  - intros ->%String.eqb_eq. cbn [to_serializable]. unfold dump_query.
    rewrite (from_serializable_requirements _ (domain q)
               (PStr (intent_value (analysis_intent q)))).
    + rewrite coerce_analysis_intent_value. by destruct q.
    + dict_lookup. cbn [mbind option_bind as_str].
      apply domain_of_value_value.
    + by dict_lookup.
  - intros ->%String.eqb_eq. unfold from_serializable.
    cbn [to_serializable dump_structure is_none as_str]. eval_keys.
    rewrite not_a_string by done. cbn [orb andb].
    rewrite (validate_structure_dump r) by reflexivity. reflexivity.
Qed.

Lemma restore_items_target `{PyLib} items (target restored : GlobalState) :
  (forall k w, (k, w) ∈ items ->
               exists v, from_serializable k w = Ok v /\ target !! k = Some v) ->
  exists r,
    restore_items items restored = Ok r
    /\ forall k, r !! k
                 = if decide (k ∈ items.*1) then target !! k else restored !! k.
Proof.
  revert restored. induction items as [|[k w] items IH]; intros restored Hall.
  - exists restored. split; [reflexivity|]. intros k.
    destruct (decide _) as [Hin|_]; [|reflexivity]. by apply elem_of_nil in Hin.
  - destruct (Hall k w) as (v & Hv & Htarget); [by left|].
    destruct (IH (<[k := v]> restored)) as (r & Hr & Hlookup).
    { intros k' w' Hin. apply Hall. by right. }
    exists r. cbn [restore_items]. rewrite Hv. split; [exact Hr|].
    intros k'. rewrite Hlookup. cbn [fmap list_fmap fst].
    destruct (decide (k' ∈ items.*1)) as [Hin|Hnot].
    + rewrite decide_True; [reflexivity|]. by right.
    + destruct (decide (k' = k)) as [->|Hne].
      * rewrite lookup_insert_eq, decide_True; [by rewrite Htarget|]. by left.
      * rewrite lookup_insert_ne by done. rewrite decide_False; [reflexivity|].
        intros [?|?]%elem_of_cons; done.
Qed.

Lemma checkpointable_lookup state key v :
  checkpointable state = true -> state !! key = Some v ->
  restorable key v = true.
Proof.
  unfold checkpointable. rewrite forallb_forall. intros Hall Hkey.
  apply (Hall (key, v)), list_elem_of_In, elem_of_map_to_list, Hkey.
Qed.

Lemma serialize_state_lookup `{PyLib} state key w :
  checkpointable state = true ->
  serialize_state state !! key = Some w ->
  exists v, without_none state !! key = Some v /\ w = to_serializable v
            /\ restorable key v = true.
Proof.
  intros Hstate. unfold serialize_state. fold (without_none state).
  rewrite lookup_fmap. destruct (without_none state !! key) as [v|] eqn:Hv;
    [|discriminate].
  intros [= <-]. exists v. repeat split.
  apply map_lookup_filter_Some in Hv as [Hv _].
  by apply (checkpointable_lookup state).
Qed.

Lemma deserialize_serialize `{PyLib} state :
  checkpointable state = true ->
  deserialize_state (map_to_list (serialize_state state))
  = Ok (without_none state).
Proof.
  intros Hstate.
  destruct (restore_items_target (map_to_list (serialize_state state))
              (without_none state) ∅) as (r & Hr & Hlookup).
  { intros k w Hin%elem_of_map_to_list.
    destruct (serialize_state_lookup state k w Hstate Hin)
      as (v & Hv & -> & Hfield).
    exists v. split; [|exact Hv]. by apply from_serializable_to_serializable. }
  unfold deserialize_state. rewrite Hr. f_equal. apply map_eq. intros k.
  rewrite Hlookup. destruct (decide _) as [Hin|Hnot]; [reflexivity|].
  rewrite lookup_empty. symmetry.
  destruct (without_none state !! k) as [v|] eqn:Hv; [|reflexivity].
  exfalso. apply Hnot. apply list_elem_of_fmap.
  exists (k, to_serializable v). split; [reflexivity|].
  apply elem_of_map_to_list. unfold serialize_state.
  fold (without_none state). by rewrite lookup_fmap, Hv.
Qed.

Lemma plain_checkpoint_payload `{PyLib} state saved_at :
  checkpointable state = true ->
  plain (checkpoint_payload state saved_at) = true.
Proof.
  intros Hstate. unfold checkpoint_payload.
  cbn [plain forallb map fst snd].
  rewrite (bool_decide_eq_true_2
             (NoDup (map fst (map_to_list (serialize_state state)))))
    by apply NoDup_fst_map_to_list.
  replace (forallb _ (map_to_list (serialize_state state))) with true;
    [reflexivity|].
  symmetry. apply forallb_forall.
  intros [k w] Hin%list_elem_of_In%elem_of_map_to_list.
  destruct (serialize_state_lookup state k w Hstate Hin)
    as (v & _ & -> & Hfield).
  by apply (restorable_plain k).
Qed.

Lemma get_without_none state key :
  get (without_none state) key = get state key.
Proof.
  unfold get, without_none.
  destruct (state !! key) as [v|] eqn:Hv.
  - destruct (is_none v) eqn:Hnone.
    + rewrite (proj2 (map_lookup_filter_None _ _ _)).
      * by destruct v.
      * right. intros v' Hv'. rewrite Hv in Hv'. injection Hv' as <-.
        cbn [snd]. by rewrite Hnone.
    + by rewrite (map_lookup_filter_Some_2 _ _ _ v).
  - rewrite (proj2 (map_lookup_filter_None _ _ _)); [reflexivity|]. by left.
Qed.

(** C2, amended.  For a state every field of which the snapshot format
    covers, saving it and loading the file gives the state without the keys
    that held [None]: such a key is left out of the snapshot and is not put
    back by the reader.  So [state.get(key)] is the same before and after
    for every key, while a key that held [None] is no longer in the
    dictionary. *)
Theorem checkpoint_round_trip `{PyLib} (state : GlobalState)
    (saved_at : datetime) (path : string) (fs : gmap string text) :
  checkpointable state = true ->
  load_checkpoint path (save_checkpoint state saved_at path fs)
  = Ok (without_none state)
  /\ (forall key, get (without_none state) key = get state key)
  /\ (forall key, state !! key = Some PNone ->
                  without_none state !! key = None).
Proof.
  intros Hstate. split; [|split].
  - destruct (json_encode_plain _ (plain_checkpoint_payload state saved_at Hstate))
      as (document & Hdocument & Hback & Hdistinct).
    unfold load_checkpoint, save_checkpoint, save_checkpoint_steps.
    rewrite Hdocument.
    change (fs_run (FsOpenWrite path :: ?l) fs)
      with (fs_run l (<[path := text_empty]> fs)).
    rewrite (fs_run_writes path _ _ text_empty) by apply lookup_insert_eq.
    rewrite json_parse_render by exact Hdistinct.
    cbv zeta. rewrite Hback. unfold checkpoint_payload, get_method.
    dict_lookup. cbn [default]. by apply deserialize_serialize.
  - apply get_without_none.
  - intros key Hkey. apply map_lookup_filter_None. right.
    intros v Hv. rewrite Hkey in Hv. injection Hv as <-. discriminate.
Qed.

(** The state after the rule path of the understanding stage, saved at
    time 20. *)
Lemma checkpoint_round_trip_witness :
  checkpointable understood_state = true
  /\ load_checkpoint (H := Reference.lib) "checkpoint.json"
       (save_checkpoint understood_state 20 "checkpoint.json" ∅)
     = Ok (without_none understood_state)
  /\ get (without_none understood_state) "structure"
     = get understood_state "structure".
Proof.
  split; [vm_compute; reflexivity|].
  destruct (checkpoint_round_trip (H := Reference.lib) understood_state 20
              "checkpoint.json" ∅) as (Hload & Hget & _).
  - vm_compute. reflexivity.
  - split; [exact Hload|apply Hget].
Defined.

(** C2 as stated fails on the state the understanding stage returns
    when it has asked the model.  The requirements are the dictionary the
    answer was read as; saved and loaded, they are an [AnalysisQuery].  The
    structure, not planned yet, is a key that holds [None] before and a
    key that is not there after. *)
Lemma checkpoint_round_trip_counterexample :
  is_ok (fst asked_run) = true
  /\ returned asked_run !! "requirements"
     = Some (PDict [("domain", PStr "通用");
                    ("analysis_intent", PStr "overview")])
  /\ returned asked_run !! "structure" = Some PNone
  /\ is_ok (load_checkpoint (H := Reference.lib) "checkpoint.json"
              (save_checkpoint (returned asked_run) 20 "checkpoint.json" ∅))
     = true
  /\ reloaded (returned asked_run) !! "requirements"
     = Some (PQuery {| domain := GENERAL; analysis_intent := OVERVIEW |})
  /\ reloaded (returned asked_run) !! "structure" = None.
Proof. repeat split; vm_compute; reflexivity. Qed.
